(** * Project Structure Analyzer: a shallow embedding of
      [project-analyzer/scripts/analyze_project.py] and the properties of
      its classifier, walks, dependency extractor and tree renderer. *)

From Stdlib Require Import Bool Arith List Ascii String ZArith Lia.
From Stdlib Require Import Sorting.Sorted Sorting.Permutation DecimalString.
Import ListNotations.

Local Open Scope string_scope.
Local Open Scope list_scope.

Set Implicit Arguments.
Set Warnings "-register-all".

(* ================================================================== *)
(** * Python strings

    A Python [str] is modelled by a Rocq [string]: a sequence of
    characters with code points below 256. *)
(* ================================================================== *)

Module PyStr.

(** [c in string.whitespace] extended to the code points below 256
    for which [str.isspace] holds: 9..13, 28..32, 133 and 160. *)
Definition isspace (c : ascii) : bool :=
  let n := nat_of_ascii c in
  (((9 <=? n) && (n <=? 13)) || ((28 <=? n) && (n <=? 32))
   || (n =? 133) || (n =? 160))%nat.

(** [s.lstrip()] *)
Fixpoint lstrip (s : string) : string :=
  match s with
  | EmptyString => EmptyString
  | String c s' => if isspace c then lstrip s' else s
  end.

(** [s.rstrip()] *)
Fixpoint rstrip (s : string) : string :=
  match s with
  | EmptyString => EmptyString
  | String c s' =>
      match rstrip s' with
      | EmptyString => if isspace c then EmptyString else String c EmptyString
      | r => String c r
      end
  end.

(** [s.strip()] *)
Definition strip (s : string) : string := rstrip (lstrip s).

(** [s.startswith(p)] *)
Definition startswith (s p : string) : bool := String.prefix p s.

(** [s.split(sep)[0]] for a non-empty [sep]: the part of [s] before the
    first occurrence of [sep], all of [s] when there is none. *)
Fixpoint split_head (sep s : string) : string :=
  match s with
  | EmptyString => EmptyString
  | String c s' =>
      if String.prefix sep s then EmptyString else String c (split_head sep s')
  end.

(** [sub in s] on strings. *)
Fixpoint contains (sub s : string) : bool :=
  String.prefix sub s
  || match s with
     | EmptyString => false
     | String _ s' => contains sub s'
     end.

(** [c.lower()] on one character. *)
Definition lower_char (c : ascii) : ascii :=
  let n := nat_of_ascii c in
  if (((65 <=? n) && (n <=? 90))
      || ((192 <=? n) && (n <=? 222) && negb (n =? 215)))%nat
  then ascii_of_nat (n + 32) else c.

(** [s.lower()] *)
Fixpoint lower (s : string) : string :=
  match s with
  | EmptyString => EmptyString
  | String c s' => String (lower_char c) (lower s')
  end.

(** [s.rfind('.')], scanning from position [i] with the best position
    found so far. *)
Fixpoint rfind_dot (s : string) (i : nat) (found : option nat) : option nat :=
  match s with
  | EmptyString => found
  | String c s' =>
      rfind_dot s' (S i) (if Ascii.eqb c "."%char then Some i else found)
  end.

(** Iterating over a file opened in text mode: the lines of [s].  A
    line ends at a line feed, at a carriage return, or at the two
    together, and comes with a line feed at its end in each case
    (universal newlines); the last line may have none. *)
Fixpoint readlines (s : string) : list string :=
  match s with
  | EmptyString => []
  | String c s' =>
      if Ascii.eqb c "010"%char then String "010"%char EmptyString :: readlines s'
      else if Ascii.eqb c "013"%char then
        match s' with
        | String d s'' =>
            if Ascii.eqb d "010"%char
            then String "010"%char EmptyString :: readlines s''
            else String "010"%char EmptyString :: readlines s'
        | EmptyString => [String "010"%char EmptyString]
        end
      else match readlines s' with
           | [] => [String c EmptyString]
           | l :: ls => String c l :: ls
           end
  end.

(** [x in names] for a list or set of strings. *)
Definition mem (x : string) (names : list string) : bool :=
  existsb (String.eqb x) names.

End PyStr.

(* ================================================================== *)
(** * Values read by [json.load] *)
(* ================================================================== *)

(** A JSON object is the [dict] Python builds from it: its keys in
    insertion order. *)
Inductive json : Type :=
| JNull
| JBool (b : bool)
| JNum (n : Z)
| JStr (s : string)
| JArr (l : list json)
| JObj (kv : list (string * json)).

(* ================================================================== *)
(** * The filesystem seen by one run *)
(* ================================================================== *)

(** The exceptions a run can meet. *)
Inductive exn : Type :=
| FileNotFoundError
| NotADirectoryError
| IsADirectoryError
| PermissionError
| UnicodeDecodeError
| JSONDecodeError
| TypeError
| AttributeError.

Inductive result (A : Type) : Type :=
| Ok (a : A)
| Raise (e : exn).
Arguments Ok {A} a.
Arguments Raise {A} e.

(** What a file holds: [unreadable] is the exception that opening or
    reading the file raises, if any (no permission to read it, bytes that
    do not decode); [text] is what reading it gives otherwise, and
    [parsed] what [json.load] makes of that ([None] when parsing
    raises). *)
Record content : Type := Content {
  text : string;
  parsed : option json;
  unreadable : option exn
}.

(** A directory entry.  A [Dir] can be searched: an entry in it is
    reached by its name.  [listable] tells whether enumerating it is
    permitted as well, which [iterdir] and [os.walk] need.  [items] is in
    the order the filesystem enumerates.  [Locked] is a directory on which
    the process has no permission at all: it can be neither enumerated
    nor searched, so that [stat] on a path that goes through it raises
    [PermissionError]. *)
Inductive entry : Type :=
| File (name : string) (data : content)
| Dir (name : string) (listable : bool) (items : list entry)
| Locked (name : string).

Definition entry_name (e : entry) : string :=
  match e with
  | File n _ => n
  | Dir n _ _ => n
  | Locked n => n
  end.

Definition is_dir (e : entry) : bool :=
  match e with Dir _ _ _ => true | Locked _ => true | File _ _ => false end.

Definition is_file (e : entry) : bool :=
  match e with File _ _ => true | Dir _ _ _ => false | Locked _ => false end.

(** Induction over entries, with the items of a directory covered. *)
Section EntryInd.
Variable P : entry -> Prop.
Hypothesis P_file : forall n c, P (File n c).
Hypothesis P_dir : forall n r items, Forall P items -> P (Dir n r items).
Hypothesis P_locked : forall n, P (Locked n).

Fixpoint entry_forall_ind (e : entry) : P e :=
  match e with
  | File n c => P_file n c
  | Dir n r items =>
      P_dir n r
        ((fix all (l : list entry) : Forall P l :=
            match l with
            | [] => Forall_nil P
            | x :: l' => Forall_cons x (entry_forall_ind x) (all l')
            end) items)
  | Locked n => P_locked n
  end.
End EntryInd.

(** [path.iterdir()], [path] being what the path resolves to. *)
Definition iterdir (path : option entry) : result (list entry) :=
  match path with
  | None => Raise FileNotFoundError
  | Some (File _ _) => Raise NotADirectoryError
  | Some (Dir _ false _) => Raise PermissionError
  | Some (Locked _) => Raise PermissionError
  | Some (Dir _ true items) => Ok items
  end.

(** [path / name]: the entry of that name under [path], if any. *)
Definition child (path : option entry) (n : string) : option entry :=
  match path with
  | Some (Dir _ _ items) =>
      find (fun e => String.eqb (entry_name e) n) items
  | _ => None
  end.

(** What [path.exists()] returns once [stat] went through: whether the
    path names an entry. *)
Definition exists_ (path : option entry) : bool :=
  match path with Some _ => true | None => false end.

(** [stat] on [path / n]: the directory [path] is searched for the name,
    which a directory without any permission refuses. *)
Definition lookup (path : option entry) (n : string) : result (option entry) :=
  match path with
  | Some (Locked _) => Raise PermissionError
  | _ => Ok (child path n)
  end.

(** [json.load(open(path))]; opening a directory for reading raises
    [IsADirectoryError], or [PermissionError] when reading it is not
    permitted. *)
Definition json_load (path : option entry) : result json :=
  match path with
  | None => Raise FileNotFoundError
  | Some (Dir _ true _) => Raise IsADirectoryError
  | Some (Dir _ false _) => Raise PermissionError
  | Some (Locked _) => Raise PermissionError
  | Some (File _ c) =>
      match unreadable c with
      | Some e => Raise e
      | None =>
          match parsed c with
          | Some v => Ok v
          | None => Raise JSONDecodeError
          end
      end
  end.

(** [os.path.relpath] of a file below the project root: the directory
    names from the root, then the file name. *)
Definition relpath (dirs : list string) (filename : string) : string :=
  String.concat "/" (dirs ++ [filename]).

(* ================================================================== *)
(** * The analyzer's state and constants *)
(* ================================================================== *)

(** [self.ignore_dirs] *)
Definition ignore_dirs : list string :=
  [".git"; "node_modules"; "__pycache__"; ".venv"; "venv";
   "dist"; "build"; ".next"; "coverage"; ".pytest_cache";
   "vendor"; "target"; "bin"; "obj"].

Definition ignored (n : string) : bool := PyStr.mem n ignore_dirs.

(** [name.startswith('.')] *)
Definition hidden (n : string) : bool := PyStr.startswith n ".".

(** [item.suffix]: the part of the name from its last dot, when that dot
    is neither the first nor the last character. *)
Definition suffix (n : string) : string :=
  match PyStr.rfind_dot n 0 None with
  | Some i =>
      if ((0 <? i) && (i <? String.length n - 1))%nat
      then String.substring i (String.length n - i) n
      else EmptyString
  | None => EmptyString
  end.

(** [self.file_stats], a [defaultdict(int)]: extensions with their counts,
    in the order the extensions were first met. *)
Definition histogram : Type := list (string * nat).

(** [file_stats[ext] += 1] *)
Fixpoint bump (ext : string) (h : histogram) : histogram :=
  match h with
  | [] => [(ext, 1)]
  | (k, n) :: h' =>
      if String.eqb ext k then (k, S n) :: h' else (k, n) :: bump ext h'
  end.

(** The sum of all the counts of a histogram. *)
Definition total (h : histogram) : nat :=
  fold_right (fun kv acc => snd kv + acc) 0 h.

(* ================================================================== *)
(** * Tree Walker and Statistics Collector: [_scan_directory] *)
(* ================================================================== *)

(** The test of line 53: hidden names are passed over, the two
    environment files apart. *)
Definition passed_over (n : string) : bool :=
  hidden n && negb (PyStr.mem n [".env"; ".env.example"]).

(** The body of the [for] loop of [_scan_directory] over the items of a
    directory, [descend] being the recursive call. *)
Definition scan_items (descend : entry -> histogram -> result histogram)
  : list entry -> histogram -> result histogram :=
  fix loop (l : list entry) (file_stats : histogram) : result histogram :=
    match l with
    | [] => Ok file_stats
    | item :: rest =>
        if passed_over (entry_name item) then loop rest file_stats
        else if is_dir item && negb (ignored (entry_name item)) then
          match descend item file_stats with
          | Ok file_stats' => loop rest file_stats'
          | Raise e => Raise e
          end
        else if is_file item then
          loop rest (bump (PyStr.lower (suffix (entry_name item))) file_stats)
        else loop rest file_stats
    end.

(** [_scan_directory(path, depth, max_depth)] on an existing [path]. *)
Fixpoint scan_entry (max_depth : nat) (path : entry) (depth : nat)
  (file_stats : histogram) {struct path} : result histogram :=
  if (max_depth <? depth)%nat then Ok file_stats
  else
    match path with
    | File _ _ => Raise NotADirectoryError
    | Dir _ false _ => Ok file_stats  (* except PermissionError: pass *)
    | Locked _ => Ok file_stats       (* except PermissionError: pass *)
    | Dir _ true items =>
        scan_items
          (fun item st => scan_entry max_depth item (S depth) st)
          items file_stats
    end.

(** [self._scan_directory()]: the walk from the project path, from depth 0
    with [max_depth = 5], on the empty [file_stats]. *)
Definition _scan_directory (project_path : option entry) : result histogram :=
  match project_path with
  | None => Raise FileNotFoundError
  | Some path => scan_entry 5 path 0 []
  end.

(** The files a walk bounded by [max_depth] reaches below a directory at
    [depth], by their paths: [keep] tells which names are considered; a
    directory is entered when it is considered, not ignored, listable and
    no deeper than [max_depth]. *)
Fixpoint files_within (keep : string -> bool) (max_depth depth : nat)
  (path : entry) {struct path} : list (list string) :=
  match path with
  | File _ _ => []
  | Dir _ listable items =>
      if listable && (depth <=? max_depth)%nat then
        flat_map
          (fun item =>
             match item with
             | File f _ => if keep f then [[f]] else []
             | Dir d _ _ =>
                 if keep d && negb (ignored d)
                 then map (cons d) (files_within keep max_depth (S depth) item)
                 else []
             | Locked _ => []
             end) items
      else []
  | Locked _ => []
  end.

(** What one item of a directory at [depth] adds to the files reached. *)
Definition reached_by (keep : string -> bool) (max_depth depth : nat)
  (item : entry) : list (list string) :=
  match item with
  | File f _ => if keep f then [[f]] else []
  | Dir d _ _ =>
      if keep d && negb (ignored d)
      then map (cons d) (files_within keep max_depth (S depth) item)
      else []
  | Locked _ => []
  end.

(** Names not starting with a dot. *)
Definition non_hidden (n : string) : bool := negb (hidden n).

(** Names the statistics walk considers. *)
Definition considered (n : string) : bool := negb (passed_over n).

(* ================================================================== *)
(** * Python operations on the value of a manifest *)
(* ================================================================== *)

Definition bind {A B : Type} (r : result A) (k : A -> result B) : result B :=
  match r with
  | Ok a => k a
  | Raise e => Raise e
  end.

Notation "x <- r ;; k" := (bind r (fun x => k))
  (at level 61, r at next level, right associativity).

(** A [dict] with string keys, in insertion order. *)
Definition dict (V : Type) : Type := list (string * V).

(** [k in d] *)
Definition dict_mem {V : Type} (k : string) (d : dict V) : bool :=
  existsb (fun kv => String.eqb k (fst kv)) d.

(** [d.get(k)] *)
Definition dict_get {V : Type} (k : string) (d : dict V) : option V :=
  option_map snd (find (fun kv => String.eqb k (fst kv)) d).

(** [d[k] = v] *)
Fixpoint dict_set {V : Type} (k : string) (v : V) (d : dict V) : dict V :=
  match d with
  | [] => [(k, v)]
  | (k', v') :: d' =>
      if String.eqb k k' then (k', v) :: d' else (k', v') :: dict_set k v d'
  end.

(** [list(d.keys())] *)
Definition dict_keys {V : Type} (d : dict V) : list string := map fst d.

(** [k in v] for a string [k]. *)
Definition py_in (k : string) (v : json) : result bool :=
  match v with
  | JObj kv => Ok (dict_mem k kv)
  | JArr l =>
      Ok (existsb (fun x => match x with
                            | JStr s => String.eqb k s
                            | _ => false
                            end) l)
  | JStr s => Ok (PyStr.contains k s)
  | _ => Raise TypeError
  end.

(** [v.get(k, {})] *)
Definition py_get (v : json) (k : string) : result json :=
  match v with
  | JObj kv =>
      Ok (match dict_get k kv with Some x => x | None => JObj [] end)
  | _ => Raise AttributeError
  end.

(** [{**a, **b}] *)
Definition py_merge (a b : json) : result (dict json) :=
  match a, b with
  | JObj ka, JObj kb =>
      Ok (fold_left (fun d kv => dict_set (fst kv) (snd kv) d) kb ka)
  | _, _ => Raise TypeError
  end.

(** [list(v.keys())] *)
Definition py_keys (v : json) : result (list string) :=
  match v with
  | JObj kv => Ok (dict_keys kv)
  | _ => Raise AttributeError
  end.

(* ================================================================== *)
(** * Classifier: [_identify_project_type] *)
(* ================================================================== *)

Inductive project_type : Type :=
| ReactNext | Vue | NodeExpress | Node | JavaScript
| Rust | Go | Java | Python | Ruby | CSharp
| TypeScript | PHP | Unknown.

(** The label the report shows. *)
Definition label (t : project_type) : string :=
  match t with
  | ReactNext => "React/Next.js Project"
  | Vue => "Vue.js Project"
  | NodeExpress => "Node.js/Express Project"
  | Node => "Node.js Project"
  | JavaScript => "JavaScript Project"
  | Rust => "Rust Project"
  | Go => "Go Project"
  | Java => "Java Project"
  | Python => "Python Project"
  | Ruby => "Ruby Project"
  | CSharp => "C# Project"
  | TypeScript => "TypeScript Project"
  | PHP => "PHP Project"
  | Unknown => "Unknown Project Type"
  end.

(** Lines 73 to 82 on the loaded manifest: the value assigned to
    [self.project_type], [None] when none is assigned. *)
Definition classify_manifest (pkg : json) : result (option project_type) :=
  a <- py_in "dependencies" pkg ;;
  b <- (if a then Ok true else py_in "devDependencies" pkg) ;;
  if b then
    d <- py_get pkg "dependencies" ;;
    dd <- py_get pkg "devDependencies" ;;
    deps <- py_merge d dd ;;
    Ok (Some (if dict_mem "react" deps || dict_mem "next" deps then ReactNext
              else if dict_mem "vue" deps then Vue
              else if dict_mem "express" deps then NodeExpress
              else Node))
  else Ok None.

(** Lines 70 to 84: the manifest rule with its [try] and bare [except]. *)
Definition node_rule (project_path : option entry) : option project_type :=
  match pkg <- json_load (child project_path "package.json") ;;
        classify_manifest pkg with
  | Ok t => t
  | Raise _ => Some JavaScript
  end.

(** [max(file_stats.items(), key=lambda x: x[1])]: the first item with the
    greatest count. *)
Fixpoint max_by_count (best : string * nat) (l : histogram) : string * nat :=
  match l with
  | [] => best
  | x :: l' => max_by_count (if (snd best <? snd x)%nat then x else best) l'
  end.

Definition ext_map : dict project_type :=
  [(".py", Python); (".js", JavaScript); (".ts", TypeScript);
   (".java", Java); (".go", Go); (".rs", Rust); (".rb", Ruby);
   (".php", PHP)].

(** Lines 98 to 113: the most common extension decides. *)
Definition fallback_rule (file_stats : histogram) : project_type :=
  match file_stats with
  | [] => Unknown
  | x :: l =>
      let most_common := max_by_count x l in
      match dict_get (fst most_common) ext_map with
      | Some t => t
      | None => Unknown
      end
  end.

(** [_identify_project_type]: the value of [self.project_type] afterwards,
    [None] when the attribute was not set. *)
Definition _identify_project_type (project_path : option entry)
  (file_stats : histogram) : result (option project_type) :=
  items <- iterdir project_path ;;
  let root_files := map entry_name (filter is_file items) in
  let has n := PyStr.mem n root_files in
  Ok (if has "package.json" then node_rule project_path
      else if has "Cargo.toml" then Some Rust
      else if has "go.mod" then Some Go
      else if has "pom.xml" || has "build.gradle" then Some Java
      else if has "requirements.txt" || has "pyproject.toml" || has "setup.py"
           then Some Python
      else if has "Gemfile" then Some Ruby
      else if existsb (PyStr.contains ".csproj") root_files then Some CSharp
      else Some (fallback_rule file_stats)).

(* ================================================================== *)
(** * [os.walk] *)
(* ================================================================== *)

(** The recursion of [os.walk] into the directories among [l] that the
    loop body left in [dirs]. *)
Definition walk_dirs {X : Type} (keep : string -> bool)
  (descend : entry -> list X) : list entry -> list X :=
  fix sub (l : list entry) : list X :=
    match l with
    | [] => []
    | d :: rest =>
        if is_dir d && keep (entry_name d) then descend d ++ sub rest
        else sub rest
    end.

(** [os.walk(top)], top-down, errors ignored: for each directory visited,
    its path from the top and its file names.  [keep] is what the loop body
    leaves in [dirs]. *)
Fixpoint os_walk (keep : string -> bool) (rel : list string) (top : entry)
  {struct top} : list (list string * list string) :=
  match top with
  | File _ _ => []
  | Dir _ false _ => []
  | Locked _ => []
  | Dir _ true items =>
      (rel, map entry_name (filter is_file items))
      :: walk_dirs keep
           (fun d => os_walk keep (rel ++ [entry_name d]) d) items
  end.

Definition walk (keep : string -> bool) (project_path : option entry)
  : list (list string * list string) :=
  match project_path with
  | None => []
  | Some top => os_walk keep [] top
  end.

(* ================================================================== *)
(** * Entry-Point Locator: [_find_entry_points] *)
(* ================================================================== *)

Definition entry_candidates : list string :=
  ["main.py"; "app.py"; "server.py"; "run.py"; "__init__.py";
   "index.js"; "index.ts"; "server.js"; "app.js"; "main.js";
   "main.go"; "main.rs"; "Main.java"; "Program.cs";
   "index.html"; "index.php"].

Definition _find_entry_points (project_path : option entry) : list string :=
  flat_map
    (fun step =>
       map (relpath (fst step))
           (filter (fun filename => PyStr.mem filename entry_candidates)
                   (snd step)))
    (walk (fun d => negb (ignored d)) project_path).

(* ================================================================== *)
(** * Config Cataloger: [_analyze_config_files] *)
(* ================================================================== *)

Definition config_patterns : dict string :=
  [("package.json", "Node.js dependencies and scripts");
   ("tsconfig.json", "TypeScript configuration");
   ("webpack.config.js", "Webpack bundler configuration");
   ("vite.config.js", "Vite bundler configuration");
   ("next.config.js", "Next.js framework configuration");
   ("requirements.txt", "Python dependencies");
   ("pyproject.toml", "Python project metadata and dependencies");
   ("setup.py", "Python package setup");
   ("Pipfile", "Pipenv dependencies");
   ("Cargo.toml", "Rust dependencies and package info");
   ("go.mod", "Go module dependencies");
   ("pom.xml", "Maven dependencies");
   ("build.gradle", "Gradle build configuration");
   ("Gemfile", "Ruby dependencies");
   ("composer.json", "PHP dependencies");
   (".env", "Environment variables");
   (".env.example", "Example environment variables");
   ("docker-compose.yml", "Docker services configuration");
   ("Dockerfile", "Docker image definition");
   (".eslintrc", "ESLint code quality rules");
   (".prettierrc", "Prettier code formatting");
   ("jest.config.js", "Jest testing framework");
   ("pytest.ini", "Pytest configuration");
   ("README.md", "Project documentation")].

(** The inner loop of lines 167 to 170 over the files of one directory. *)
Definition catalog_files (rel : list string) (files : list string)
  (config_files : dict string) : dict string :=
  fold_left
    (fun acc filename =>
       match dict_get filename config_patterns with
       | Some description => dict_set (relpath rel filename) description acc
       | None => acc
       end) files config_files.

(** [_analyze_config_files]: the walk has no pruning of [dirs]; a directory
    that is neither the root nor directly under it is passed over. *)
Definition _analyze_config_files (project_path : option entry) : dict string :=
  fold_left
    (fun acc step =>
       if (1 <? List.length (fst step))%nat then acc
       else catalog_files (fst step) (snd step) acc)
    (walk (fun _ => true) project_path) [].

(* ================================================================== *)
(** * Dependency Extractor: [_analyze_dependencies] *)
(* ================================================================== *)

(** [self.dependencies]: the value under ['npm'] (its ['dependencies'] and
    ['devDependencies'] lists) and the value under ['pip'], each absent
    when the key is. *)
Record dependencies : Type := Dependencies {
  npm : option (list string * list string);
  pip : option (list string)
}.

(** Lines 179 to 185 on the manifest. *)
Definition npm_dependencies (pkg_json : option entry)
  : result (list string * list string) :=
  pkg <- json_load pkg_json ;;
  deps <- py_get pkg "dependencies" ;;
  dev_deps <- py_get pkg "devDependencies" ;;
  names <- py_keys deps ;;
  dev_names <- py_keys dev_deps ;;
  Ok (firstn 10 names, firstn 10 dev_names).

(** [line.split('==')[0].split('>=')[0].strip()] *)
Definition requirement_name (line : string) : string :=
  PyStr.strip (PyStr.split_head ">=" (PyStr.split_head "==" line)).

(** The test of the comprehension of line 195. *)
Definition requirement_line (line : string) : bool :=
  negb (String.eqb (PyStr.strip line) EmptyString)
  && negb (PyStr.startswith line "#").

(** The comprehension of lines 194 and 195 over the lines of the file. *)
Definition requirement_names (lines : list string) : list string :=
  map requirement_name (filter requirement_line lines).

(** Lines 193 to 196 on the requirements file: opening it, or reading
    its lines, may raise. *)
Definition pip_dependencies (req_txt : option entry) : result (list string) :=
  match req_txt with
  | None => Raise FileNotFoundError
  | Some (Dir _ true _) => Raise IsADirectoryError
  | Some (Dir _ false _) => Raise PermissionError
  | Some (Locked _) => Raise PermissionError
  | Some (File _ c) =>
      match unreadable c with
      | Some e => Raise e
      | None => Ok (firstn 15 (requirement_names (PyStr.readlines (text c))))
      end
  end.

(** A [try] whose [except] passes: the key is set only on success. *)
Definition on_success {A : Type} (r : result A) : option A :=
  match r with
  | Ok a => Some a
  | Raise _ => None
  end.

(** [_analyze_dependencies()]: the two calls of [exists()], lines 176 and
    191, are outside the [try] blocks, so the [PermissionError] of a root
    that cannot be searched ends the method. *)
Definition _analyze_dependencies (project_path : option entry)
  : result dependencies :=
  pkg_json <- lookup project_path "package.json" ;;
  let npm_entry :=
    if exists_ pkg_json then on_success (npm_dependencies pkg_json)
    else None in
  req_txt <- lookup project_path "requirements.txt" ;;
  let pip_entry :=
    if exists_ req_txt then on_success (pip_dependencies req_txt)
    else None in
  Ok {| npm := npm_entry; pip := pip_entry |}.

(* ================================================================== *)
(** * Tree Renderer: [_get_tree_structure] *)
(* ================================================================== *)

(** [key a <= key b] for the key [(not x.is_dir(), x.name)]. *)
Definition key_leb (a b : entry) : bool :=
  match is_dir a, is_dir b with
  | true, false => true
  | false, true => false
  | _, _ => String.leb (entry_name a) (entry_name b)
  end.

(** The order of the sort key, as a relation. *)
Definition key_le (a b : entry) : Prop := key_leb a b = true.

(** [sorted(..., key=...)]: a stable sort. *)
Fixpoint insert_sorted (x : entry) (l : list entry) : list entry :=
  match l with
  | [] => [x]
  | y :: l' => if key_leb x y then x :: l else y :: insert_sorted x l'
  end.

Definition sorted (l : list entry) : list entry :=
  fold_right insert_sorted [] l.

(** The filter of line 210. *)
Definition displayed (i : entry) : bool :=
  negb (hidden (entry_name i)) && negb (ignored (entry_name i)).

(** [enumerate(l)] *)
Definition enumerate {A : Type} (l : list A) : list (nat * A) :=
  combine (seq 0 (List.length l)) l.

(** The connectors, in their UTF-8 encoding. *)
Definition last_child : string := "└── ".
Definition inner_child : string := "├── ".
Definition last_indent : string := "    ".
Definition inner_indent : string := "│   ".

(** The line appended for one item. *)
Definition tree_line (prefix : string) (is_last : bool) (n : string)
  (dir : bool) : string :=
  (prefix ++ (if is_last then last_child else inner_child) ++ n
   ++ (if dir then "/" else ""))%string.

(** [add_to_tree(path, prefix, depth)] for the items of a directory; the
    lines it appends to [tree].  [fuel] bounds the nesting of the calls:
    [max_depth - depth] is enough. *)
Fixpoint add_to_tree (fuel : nat) (max_depth : nat) (path : entry)
  (prefix : string) (depth : nat) {struct fuel} : list string :=
  match fuel with
  | O => []
  | S fuel' =>
      if (max_depth <=? depth)%nat then []
      else
        match path with
        | File _ _ => []
        | Dir _ false _ => []  (* except PermissionError: pass *)
        | Locked _ => []       (* except PermissionError: pass *)
        | Dir _ true l =>
            let items := filter displayed (sorted l) in
            flat_map
              (fun ix =>
                 let i := fst ix in
                 let item := snd ix in
                 let is_last := (i =? List.length items - 1)%nat in
                 tree_line prefix is_last (entry_name item) (is_dir item)
                 :: (if is_dir item then
                       add_to_tree fuel' max_depth item
                         (prefix ++ (if is_last then last_indent
                                     else inner_indent))%string
                         (S depth)
                     else []))
              (enumerate (firstn 20 items))
        end
  end.

(** [_get_tree_structure()] with [max_depth = 3]; enumerating a root that
    is missing or is a file raises. *)
Definition _get_tree_structure (project_path : option entry)
  : result (list string) :=
  match project_path with
  | None => Raise FileNotFoundError
  | Some (File _ _) => Raise NotADirectoryError
  | Some (Dir n _ _ as root) =>
      Ok ((n ++ "/")%string :: add_to_tree 3 3 root "" 0)
  | Some (Locked n as root) =>
      Ok ((n ++ "/")%string :: add_to_tree 3 3 root "" 0)
  end.

(** The displayed tree as a forest: a node has its name, whether it is a
    directory, whether it was drawn as the last child, and what is drawn
    under it. *)
Inductive shown : Type :=
| Shown (n : string) (dir : bool) (is_last : bool) (under : list shown).

Definition shown_name (s : shown) : string :=
  match s with Shown n _ _ _ => n end.
Definition shown_dir (s : shown) : bool :=
  match s with Shown _ d _ _ => d end.
Definition shown_under (s : shown) : list shown :=
  match s with Shown _ _ _ u => u end.

(** The lines that draw a node under [prefix]. *)
Fixpoint draw (prefix : string) (s : shown) {struct s} : list string :=
  match s with
  | Shown n dir is_last under =>
      tree_line prefix is_last n dir
      :: flat_map
           (fun c => draw (prefix ++ (if is_last then last_indent
                                      else inner_indent))%string c)
           under
  end.

(** Directories before files, and names in the order of strings within
    each group. *)
Definition listed_before (a b : shown) : Prop :=
  (shown_dir a = true /\ shown_dir b = false)
  \/ (shown_dir a = shown_dir b
      /\ String.leb (shown_name a) (shown_name b) = true).

(** A forest of at most [levels] levels, with at most 20 siblings in each
    directory, listed directories first and by name. *)
Fixpoint bounded_forest (levels : nat) (siblings : list shown) : Prop :=
  match levels with
  | O => siblings = []
  | S k =>
      List.length siblings <= 20
      /\ StronglySorted listed_before siblings
      /\ Forall (fun s => bounded_forest k (shown_under s)) siblings
  end.

(* ================================================================== *)
(** * Report Assembler: [_generate_architecture_notes], [analyze], [main] *)
(* ================================================================== *)

(** [(project_path / n).exists()]; [Path.exists] returns [False] for a
    missing entry and for a path through a file, and lets
    [PermissionError] through. *)
Definition exists_at (project_path : option entry) (n : string) : result bool :=
  e <- lookup project_path n ;;
  Ok (exists_ e).

(** [(project_path / 'src' / n).exists()] *)
Definition exists_in_src (project_path : option entry) (n : string)
  : result bool :=
  src <- lookup project_path "src" ;;
  e <- lookup src n ;;
  Ok (exists_ e).

(** [a or b]: [b] is evaluated only when [a] is false. *)
Definition either (a b : result bool) : result bool :=
  x <- a ;;
  if x then Ok true else b.

(** The notes for the five conditions of lines 235 to 248. *)
Definition notes_for (components api models tests docs : bool) : list string :=
  (if components
   then ["Frontend component-based architecture detected"] else [])
  ++ (if api then ["API/routing layer present"] else [])
  ++ (if models then ["Data models layer detected"] else [])
  ++ (if tests then ["Test suite present"] else [])
  ++ (if docs then ["Documentation directory found"] else []).

(** [_generate_architecture_notes()]: the calls of [exists()] are outside
    any [try], so the [PermissionError] of one of them ends the method. *)
Definition _generate_architecture_notes (project_path : option entry)
  : result (list string) :=
  src_exists <- exists_at project_path "src" ;;
  components_exists <-
    either (exists_at project_path "components")
           (exists_in_src project_path "components") ;;
  api <- either (exists_at project_path "api")
                (exists_at project_path "routes") ;;
  models <- either (exists_at project_path "models")
                   (exists_in_src project_path "models") ;;
  tests <- either (exists_at project_path "tests")
                  (exists_at project_path "test") ;;
  docs <- exists_at project_path "docs" ;;
  Ok (notes_for components_exists api models tests docs).

(** The dictionary [analyze] returns. *)
Record report : Type := Report {
  r_project_type : project_type;
  r_languages : histogram;
  r_structure : list string;
  r_entry_points : list string;
  r_config_files : dict string;
  r_dependencies : dependencies;
  r_architecture_notes : list string
}.

(** The methods of the analyzer, as the steps a run enters. *)
Inductive step : Type :=
| ScanDirectory
| IdentifyProjectType
| FindEntryPoints
| AnalyzeConfigFiles
| AnalyzeDependencies
| GetTreeStructure
| GenerateArchitectureNotes.

(** [analyze()]: the steps entered, in order, and the report or the
    exception that ended the run.  Reading [self.project_type] raises
    [AttributeError] when no step assigned it. *)
Definition analyze (project_path : option entry) : list step * result report :=
  match _scan_directory project_path with
  | Raise e => ([ScanDirectory], Raise e)
  | Ok file_stats =>
      match _identify_project_type project_path file_stats with
      | Raise e => ([ScanDirectory; IdentifyProjectType], Raise e)
      | Ok assigned =>
          let entry_points := _find_entry_points project_path in
          let config_files := _analyze_config_files project_path in
          let entered :=
            [ScanDirectory; IdentifyProjectType; FindEntryPoints;
             AnalyzeConfigFiles; AnalyzeDependencies] in
          match _analyze_dependencies project_path with
          | Raise e => (entered, Raise e)
          | Ok deps =>
              match assigned with
              | None => (entered, Raise AttributeError)
              | Some t =>
                  match _get_tree_structure project_path with
                  | Raise e => (entered ++ [GetTreeStructure], Raise e)
                  | Ok structure =>
                      match _generate_architecture_notes project_path with
                      | Raise e =>
                          (entered
                           ++ [GetTreeStructure; GenerateArchitectureNotes],
                           Raise e)
                      | Ok notes =>
                          (entered
                           ++ [GetTreeStructure; GenerateArchitectureNotes],
                           Ok {| r_project_type := t;
                                 r_languages := file_stats;
                                 r_structure := structure;
                                 r_entry_points := entry_points;
                                 r_config_files := config_files;
                                 r_dependencies := deps;
                                 r_architecture_notes := notes |})
                      end
                  end
              end
          end
      end
  end.

(** How a run of the script ends: [sys.exit] after a message, an exception
    nobody caught, or the report printed. *)
Inductive outcome : Type :=
| Exit (code : nat) (message : string)
| Uncaught (e : exn)
| Printed (r : report).

Definition usage : string := "Usage: python analyze_project.py <project_path>".

(** [main()] on [sys.argv], [resolve] telling what a path names. *)
Definition main (argv : list string) (resolve : string -> option entry)
  : list step * outcome :=
  if (List.length argv <? 2)%nat then ([], Exit 1 usage)
  else
    let project_path := nth 1 argv EmptyString in
    match analyze (resolve project_path) with
    | (entered, Raise e) => (entered, Uncaught e)
    | (entered, Ok results) => (entered, Printed results)
    end.

(* ================================================================== *)
(** * Notions the properties are stated with *)
(* ================================================================== *)

(** The walk adds to the total one per file reached. *)
Definition counts_files (max_depth depth : nat) (path : entry) : Prop :=
  forall file_stats,
    is_dir path = true ->
    exists file_stats',
      scan_entry max_depth path depth file_stats = Ok file_stats'
      /\ total file_stats'
         = total file_stats
           + List.length (files_within considered max_depth depth path).

(** The labels the manifest rule can give. *)
Definition node_label (t : project_type) : Prop :=
  t = ReactNext \/ t = Vue \/ t = NodeExpress \/ t = Node.

(** Every character of the string is white space. *)
Fixpoint all_space (s : string) : bool :=
  match s with
  | EmptyString => true
  | String c s' => PyStr.isspace c && all_space s'
  end.

(** Every node of the first [levels] levels of a forest satisfies [P]. *)
Fixpoint every_node (P : shown -> Prop) (levels : nat)
  (siblings : list shown) : Prop :=
  match levels with
  | O => True
  | S k => Forall (fun s => P s /\ every_node P k (shown_under s)) siblings
  end.

(** The label of a manifest with a dependency section, from the names of
    its two sections. *)
Definition label_of_names (names : list string) : project_type :=
  if PyStr.mem "react" names || PyStr.mem "next" names then ReactNext
  else if PyStr.mem "vue" names then Vue
  else if PyStr.mem "express" names then NodeExpress
  else Node.

(** What [add_to_tree] draws for a directory with [levels] levels left. *)
Fixpoint forest (levels : nat) (path : entry) {struct levels} : list shown :=
  match levels with
  | O => []
  | S k =>
      match path with
      | Dir _ true l =>
          let items := filter displayed (sorted l) in
          map (fun ix =>
                 Shown (entry_name (snd ix)) (is_dir (snd ix))
                       (fst ix =? List.length items - 1)%nat
                       (if is_dir (snd ix) then forest k (snd ix) else []))
              (enumerate (firstn 20 items))
      | _ => []
      end
  end.

(** The position of the first [==] or [>=] of a line. *)
Fixpoint first_operator (s : string) : option nat :=
  match s with
  | EmptyString => None
  | String _ s' =>
      if String.prefix "==" s || String.prefix ">=" s then Some 0
      else option_map S (first_operator s')
  end.

(** The string is empty or starts with a character that is not white
    space. *)
Definition clean_head (s : string) : Prop :=
  match s with
  | EmptyString => True
  | String c _ => PyStr.isspace c = false
  end.

(** The string is empty or ends with a character that is not white
    space. *)
Fixpoint clean_last (s : string) : Prop :=
  match s with
  | EmptyString => True
  | String c s' =>
      match s' with
      | EmptyString => PyStr.isspace c = false
      | String _ _ => clean_last s'
      end
  end.

(** [t] is [s] without the white space at its two ends: what is cut off
    on each side is white space, and what is left neither starts nor ends
    with white space. *)
Definition trimmed (s t : string) : Prop :=
  exists l r,
    s = (l ++ t ++ r)%string
    /\ all_space l = true /\ all_space r = true
    /\ clean_head t /\ clean_last t.

(** The forms of a line of a requirements file, with the entries each
    yields.  A name pinned by an operator that is the first of the line,
    a [>=] not being followed by a further [=], yields the name trimmed.
    A name followed by [>==] yields the name with the [>], trimmed.  A
    line of white space and a line that starts with [#] yield nothing. *)
Inductive line_form : string -> list string -> Prop :=
| pinned (name op version t : string) :
    op = "==" \/ (op = ">=" /\ PyStr.startswith version "=" = false) ->
    first_operator (name ++ op ++ version)%string = Some (String.length name) ->
    PyStr.startswith name "#" = false ->
    trimmed name t ->
    line_form (name ++ op ++ version)%string [t]
| pinned_past (name version t : string) :
    first_operator (name ++ ">=" ++ "=" ++ version)%string
    = Some (String.length name) ->
    PyStr.startswith name "#" = false ->
    trimmed (name ++ ">")%string t ->
    line_form (name ++ ">=" ++ "=" ++ version)%string [t]
| blank (line : string) :
    all_space line = true -> line_form line []
| comment (line : string) :
    PyStr.startswith line "#" = true -> line_form line [].

(** The names a manifest declares under [section], in its order. *)
Definition declared (pkg : json) (section : string) : list string :=
  match pkg with
  | JObj kv =>
      match dict_get section kv with
      | Some (JObj d) => map fst d
      | _ => []
      end
  | _ => []
  end.

(** [file_at items dirs f]: under a directory with these [items], the
    directories [dirs], each listable, lead to a file named [f]. *)
Inductive file_at : list entry -> list string -> string -> Prop :=
| file_here (items : list entry) (f : string) (c : content) :
    In (File f c) items -> file_at items [] f
| file_below (items : list entry) (d : string) (sub : list entry)
    (dirs : list string) (f : string) :
    In (Dir d true sub) items -> file_at sub dirs f ->
    file_at items (d :: dirs) f.

(** The path names a directory that can be enumerated. *)
Definition readable_directory (path : option entry) : bool :=
  match path with
  | Some (Dir _ true _) => true
  | _ => false
  end.

(** The names of the files directly in a directory. *)
Definition root_file_names (path : option entry) : list string :=
  match path with
  | Some (Dir _ _ items) => map entry_name (filter is_file items)
  | _ => []
  end.

(** ** Inputs the properties are checked on *)

Definition newline : string := String "010"%char EmptyString.

Definition plain (s : string) : content :=
  {| text := s; parsed := None; unreadable := None |}.

(** A manifest holding [{}]. *)
Definition empty_manifest : entry :=
  File "package.json" {| text := "{}"; parsed := Some (JObj []); unreadable := None |}.

Definition bare_node_project : entry := Dir "proj" true [empty_manifest].

(** A project whose [node_modules] holds a manifest and an entry-point
    candidate. *)
Definition project_with_cache : entry :=
  Dir "proj" true
    [Dir "node_modules" true
       [File "package.json" (plain "{}"); File "index.js" (plain "")];
     File "app.py" (plain "")].

(** A project with only an environment file. *)
Definition env_only_project : entry :=
  Dir "proj" true [File ".env" (plain "KEY=1")].

(** A project with an entry point in a hidden directory. *)
Definition hidden_entry_project : list entry :=
  [Dir ".tools" true [File "main.py" (plain "")]].

(** No path names anything. *)
Definition nothing : string -> option entry := fun _ => None.

(** Every path names a directory that cannot be enumerated. *)
Definition locked : string -> option entry :=
  fun _ => Some (Dir "locked" false []).

(** A manifest with twelve dependencies and one development dependency,
    and a requirements file, in one project. *)
Definition twelve : dict json :=
  map (fun n => (n, JStr "1.0"))
      ["a"; "b"; "c"; "d"; "e"; "f"; "g"; "h"; "i"; "j"; "k"; "l"].

Definition crowded_project : option entry :=
  Some (Dir "proj" true
    [File "package.json"
       {| text := "";
          parsed := Some (JObj [("dependencies", JObj twelve);
                                ("devDependencies",
                                 JObj [("jest", JStr "29")])]);
          unreadable := None |};
     File "requirements.txt"
       (plain ("flask==2.0.1" ++ newline ++ "# comment" ++ newline
               ++ newline ++ "requests>=2.0" ++ newline)%string)]).

(** A project with both a Node-style and a Rust manifest. *)
Definition two_manifests : list entry :=
  [File "Cargo.toml" (plain "");
   File "package.json"
     {| text := "";
        parsed := Some (JObj [("dependencies",
                               JObj [("express", JStr "4")])]);
        unreadable := None |}].

(** A project with directories and files to draw. *)
Definition drawn_project : option entry :=
  Some (Dir "proj" true
    [File "b.txt" (plain ""); Dir "src" true [File "x.py" (plain "")];
     File "a.txt" (plain ""); Dir ".git" true []; Dir "lib" true []]).

(* ================================================================== *)
(** * The printed report: the rest of [main] *)
(* ================================================================== *)

(** [str(n)] *)
Definition string_of_nat (n : nat) : string :=
  NilEmpty.string_of_uint (Nat.to_uint n).

(** [c * n] for a one-character string. *)
Fixpoint repeat_char (c : ascii) (n : nat) : string :=
  match n with
  | O => EmptyString
  | S k => String c (repeat_char c k)
  end.

(** [sorted(items, key=lambda x: x[1], reverse=True)]: the greatest count
    first, items of equal count in their original order. *)
Fixpoint insert_by_count (x : string * nat) (l : histogram) : histogram :=
  match l with
  | [] => [x]
  | y :: l' =>
      if (snd y <=? snd x)%nat then x :: l else y :: insert_by_count x l'
  end.

Definition most_common_first (h : histogram) : histogram :=
  fold_right insert_by_count [] h.

(** The items of the loop of line 270. *)
Definition top_languages (languages : histogram) : histogram :=
  firstn 10 (most_common_first languages).

(** Lines 281 to 287: nothing for an empty [dependencies]; for npm only
    the ['dependencies'] list is read. *)
Definition dependency_lines (d : dependencies) : list string :=
  match npm d, pip d with
  | None, None => []
  | _, _ =>
      [(newline ++ "Key Dependencies:")%string]
      ++ match npm d with
         | Some (production, _) =>
             [("  npm (production): "
               ++ String.concat ", " (firstn 5 production))%string]
         | None => []
         end
      ++ match pip d with
         | Some names =>
             [("  pip: " ++ String.concat ", " (firstn 5 names))%string]
         | None => []
         end
  end.

(** Lines 289 to 292. *)
Definition note_lines (notes : list string) : list string :=
  match notes with
  | [] => []
  | _ =>
      (newline ++ "Architecture Notes:")%string
      :: map (fun note => ("  - " ++ note)%string) notes
  end.

(** Lines 263 to 296: the text of each [print] call, in order;
    [project_name] is [Path(project_path).name]. *)
Definition print_report (project_name : string) (results : report)
  : list string :=
  [(newline ++ repeat_char "=" 60)%string;
   ("PROJECT ANALYSIS: " ++ project_name)%string;
   (repeat_char "=" 60 ++ newline)%string;
   ("Project Type: " ++ label (r_project_type results) ++ newline)%string;
   "File Distribution:"]
  ++ map (fun item =>
            ("  " ++ (if String.eqb (fst item) EmptyString
                      then "no extension" else fst item)
             ++ ": " ++ string_of_nat (snd item) ++ " files")%string)
         (top_languages (r_languages results))
  ++ [(newline ++ "Entry Points ("
       ++ string_of_nat (List.length (r_entry_points results)) ++ "):")%string]
  ++ map (fun ep => ("  - " ++ ep)%string) (firstn 5 (r_entry_points results))
  ++ [(newline ++ "Configuration Files ("
       ++ string_of_nat (List.length (r_config_files results)) ++ "):")%string]
  ++ map (fun item => ("  - " ++ fst item ++ ": " ++ snd item)%string)
         (firstn 10 (r_config_files results))
  ++ dependency_lines (r_dependencies results)
  ++ note_lines (r_architecture_notes results)
  ++ [(newline ++ "Project Structure:")%string]
  ++ map (fun line => ("  " ++ line)%string)
         (firstn 30 (r_structure results)).

(** What a run writes to standard output. *)
Definition stdout (project_name : string) (o : outcome) : list string :=
  match o with
  | Exit _ message => [message]
  | Uncaught _ => []
  | Printed results => print_report project_name results
  end.

(* ================================================================== *)
(** * Further notions the properties are stated with *)
(* ================================================================== *)

(** The extension recorded for a file, from its path. *)
Definition extension_of (p : list string) : string :=
  PyStr.lower (suffix (last p EmptyString)).

(** [file_stats] after files with these extensions were met, in order. *)
Definition tally (exts : list string) (h : histogram) : histogram :=
  fold_left (fun acc ext => bump ext acc) exts h.

(** The count of an extension, 0 when it is not a key. *)
Definition count_of (ext : string) (h : histogram) : nat :=
  match dict_get ext h with
  | Some n => n
  | None => 0
  end.

(** The distinct elements of a list, in the order of their first
    occurrences, after those of [seen]. *)
Definition first_seen (exts : list string) (seen : list string) : list string :=
  fold_left (fun acc ext => if PyStr.mem ext acc then acc else acc ++ [ext])
            exts seen.

(** The marker files of lines 85 to 94, with their labels, in order. *)
Definition marker_rules : list (list string * project_type) :=
  [(["Cargo.toml"], Rust);
   (["go.mod"], Go);
   (["pom.xml"; "build.gradle"], Java);
   (["requirements.txt"; "pyproject.toml"; "setup.py"], Python);
   (["Gemfile"], Ruby)].

(** The label of the first rule one of whose markers is a root file. *)
Definition first_marker (root_files : list string) : option project_type :=
  option_map snd
    (find (fun rule => existsb (fun m => PyStr.mem m root_files) (fst rule))
          marker_rules).

(** The manifest is an object whose sections, where present, are objects. *)
Definition well_formed_manifest (pkg : json) : Prop :=
  exists kv,
    pkg = JObj kv
    /\ (forall v, dict_get "dependencies" kv = Some v -> exists d, v = JObj d)
    /\ (forall v, dict_get "devDependencies" kv = Some v -> exists d, v = JObj d).

(** A value that is not an object. *)
Definition not_object (v : json) : Prop :=
  match v with
  | JObj _ => False
  | _ => True
  end.

(** What loading the manifest gives is not usable: loading raises, or the
    value is null, a boolean or a number, or it is an object one of whose
    two sections is not an object. *)
Inductive broken_manifest : result json -> Prop :=
| cannot_load (e : exn) : broken_manifest (Raise e)
| null_manifest : broken_manifest (Ok JNull)
| bool_manifest (b : bool) : broken_manifest (Ok (JBool b))
| number_manifest (z : Z) : broken_manifest (Ok (JNum z))
| bad_section (kv : dict json) (section : string) (v : json) :
    section = "dependencies" \/ section = "devDependencies" ->
    dict_get section kv = Some v -> not_object v ->
    broken_manifest (Ok (JObj kv)).

(** The steps entered when reading the project type raises. *)
Definition steps_before_report : list step :=
  [ScanDirectory; IdentifyProjectType; FindEntryPoints; AnalyzeConfigFiles;
   AnalyzeDependencies].

(** The five notes, in the order they are appended. *)
Definition all_notes : list string :=
  ["Frontend component-based architecture detected";
   "API/routing layer present";
   "Data models layer detected";
   "Test suite present";
   "Documentation directory found"].

(** Whether a node is drawn as the last child. *)
Definition shown_last (s : shown) : bool :=
  match s with Shown _ _ is_last _ => is_last end.

(** All the steps of a run that returns a report. *)
Definition all_steps : list step :=
  [ScanDirectory; IdentifyProjectType; FindEntryPoints; AnalyzeConfigFiles;
   AnalyzeDependencies; GetTreeStructure; GenerateArchitectureNotes].

(** The walk leaves the histogram that one bump per file reached gives,
    in the order the files are met. *)
Definition tallies_files (max_depth depth : nat) (path : entry) : Prop :=
  forall file_stats,
    is_dir path = true ->
    scan_entry max_depth path depth file_stats
    = Ok (tally (map extension_of
                     (files_within considered max_depth depth path))
                file_stats).

(** Where an entry of the catalog comes from. *)
Definition catalogued_from (items : list entry) (entry : string * string)
  : Prop :=
  exists dirs f,
    fst entry = relpath dirs f
    /\ file_at items dirs f
    /\ List.length dirs <= 1
    /\ dict_get f config_patterns = Some (snd entry).

(** The most lines a forest of [levels] levels with at most 20 siblings
    takes. *)
Fixpoint line_bound (levels : nat) : nat :=
  match levels with
  | O => 0
  | S k => 20 * (1 + line_bound k)
  end.

(** Some entry of these items, file or directory, has the name [n]. *)
Definition named_at (items : list entry) (n : string) : Prop :=
  exists e, In e items /\ entry_name e = n.

(** The entry of these items that [src] names is a directory with an
    entry named [n]. *)
Definition named_under_src (items : list entry) (n : string) : Prop :=
  exists src_name listable sub,
    child (Some (Dir EmptyString true items)) "src"
    = Some (Dir src_name listable sub)
    /\ named_at sub n.

(** The entry that [src] names at the root is a directory without any
    permission. *)
Definition src_is_locked (items : list entry) : Prop :=
  exists m, child (Some (Dir EmptyString true items)) "src" = Some (Locked m).

(** Counts that do not grow along the list. *)
Definition by_falling_count (a b : string * nat) : Prop := snd b <= snd a.

(** ** Further inputs *)

Definition python_service : list entry :=
  [File "requirements.txt" (plain ("flask==2.0.1" ++ newline)%string);
   File "app.py" (plain "");
   Dir "node_modules" true [File "index.js" (plain "")];
   Dir "src" true
     [File "main.py" (plain ""); File "Util.PY" (plain "");
      Dir "models" true [File "README.md" (plain "")]];
   Dir "tests" true [File "README.md" (plain "")];
   File ".env" (plain "")].

(** A directory of 21 files, named [a] to [u]. *)
Definition crowded_directory : list entry :=
  map (fun c => File (String c EmptyString) (plain ""))
      (list_ascii_of_string "abcdefghijklmnopqrstu").

(** A project whose requirements file cannot be read. *)
Definition unreadable_requirements : option entry :=
  Some (Dir "proj" true
    [File "requirements.txt"
       {| text := "flask==2.0.1"; parsed := None;
          unreadable := Some PermissionError |}]).

(** A project whose [src] gives no permission, with tests beside it. *)
Definition locked_src_project : list entry :=
  [Locked "src"; Dir "tests" true []; File "main.py" (plain "")].

Definition react_manifest : entry :=
  File "package.json"
    {| text := "";
       parsed := Some (JObj [("devDependencies",
                              JObj [("vue", JStr "3"); ("next", JStr "14")])]);
       unreadable := None |}.

(* ================================================================== *)
(** * Properties *)
(* ================================================================== *)

(** ** The statistics walk counts the files it reaches *)

Lemma total_bump (ext : string) (h : histogram) :
  total (bump ext h) = S (total h).
Proof.
  induction h as [|[k n] h IH]; simpl.
  - reflexivity.
  - destruct (String.eqb ext k); simpl.
    + reflexivity.
    + rewrite IH. lia.
Qed.

Lemma files_within_dir keep max_depth depth n listable items :
  files_within keep max_depth depth (Dir n listable items)
  = if listable && (depth <=? max_depth)%nat
    then flat_map (reached_by keep max_depth depth) items
    else [].
Proof. reflexivity. Qed.

Lemma considered_spec (n : string) : considered n = negb (passed_over n).
Proof. reflexivity. Qed.

Lemma scan_items_cons descend item rest file_stats :
  scan_items descend (item :: rest) file_stats
  = if passed_over (entry_name item) then scan_items descend rest file_stats
    else if is_dir item && negb (ignored (entry_name item)) then
      match descend item file_stats with
      | Ok file_stats' => scan_items descend rest file_stats'
      | Raise e => Raise e
      end
    else if is_file item then
      scan_items descend rest
        (bump (PyStr.lower (suffix (entry_name item))) file_stats)
    else scan_items descend rest file_stats.
Proof. reflexivity. Qed.

Lemma scan_items_counts max_depth depth items :
  Forall (fun item => counts_files max_depth (S depth) item) items ->
  forall file_stats,
  exists file_stats',
    scan_items (fun item st => scan_entry max_depth item (S depth) st)
               items file_stats = Ok file_stats'
    /\ total file_stats'
       = total file_stats
         + List.length
             (flat_map (reached_by considered max_depth depth) items).
Proof.
  induction 1 as [|item rest Hitem _ IH]; intros file_stats.
  - exists file_stats. split; [reflexivity | simpl; lia].
  - rewrite scan_items_cons.
    change (flat_map (reached_by considered max_depth depth) (item :: rest))
      with (reached_by considered max_depth depth item
            ++ flat_map (reached_by considered max_depth depth) rest).
    rewrite length_app.
    set (more := flat_map (reached_by considered max_depth depth) rest) in *.
    destruct item as [f c | d r sub | d];
      unfold reached_by; try rewrite considered_spec;
      cbn [entry_name is_dir is_file].
    + destruct (passed_over f); cbn [negb andb].
      * destruct (IH file_stats) as (st & Hrun & Htot).
        exists st. split; [exact Hrun | simpl; lia].
      * destruct (IH (bump (PyStr.lower (suffix f)) file_stats))
          as (st & Hrun & Htot).
        exists st. split; [exact Hrun |].
        rewrite Htot, total_bump. simpl. lia.
    + destruct (passed_over d); cbn [negb andb].
      * destruct (IH file_stats) as (st & Hrun & Htot).
        exists st. split; [exact Hrun | simpl; lia].
      * destruct (ignored d); cbn [negb andb].
        -- destruct (IH file_stats) as (st & Hrun & Htot).
           exists st. split; [exact Hrun | simpl; lia].
        -- destruct (Hitem file_stats eq_refl) as (st1 & Hrun1 & Htot1).
           rewrite Hrun1.
           destruct (IH st1) as (st & Hrun & Htot).
           exists st. split; [exact Hrun |].
           rewrite length_map. lia.
    + destruct (passed_over d); cbn [negb andb].
      * destruct (IH file_stats) as (st & Hrun & Htot).
        exists st. split; [exact Hrun | simpl; lia].
      * destruct (ignored d); cbn [negb andb].
        -- destruct (IH file_stats) as (st & Hrun & Htot).
           exists st. split; [exact Hrun | simpl; lia].
        -- destruct (Hitem file_stats eq_refl) as (st1 & Hrun1 & Htot1).
           rewrite Hrun1. simpl in Htot1.
           destruct (IH st1) as (st & Hrun & Htot).
           exists st. split; [exact Hrun | simpl; lia].
Qed.

Lemma scan_entry_counts max_depth path :
  forall depth, counts_files max_depth depth path.
Proof.
  induction path as [f c | n r items IH | n] using entry_forall_ind;
    intros depth file_stats Hdir.
  - discriminate Hdir.
  - rewrite files_within_dir. simpl scan_entry.
    destruct (Nat.ltb_spec max_depth depth) as [Hdeep | Hshallow].
    + exists file_stats. split; [reflexivity |].
      replace (depth <=? max_depth)%nat with false
        by (symmetry; apply Nat.leb_gt; exact Hdeep).
      rewrite andb_false_r. simpl. lia.
    + destruct r; simpl.
      * replace (depth <=? max_depth)%nat with true
          by (symmetry; apply Nat.leb_le; exact Hshallow).
        apply scan_items_counts.
        apply Forall_forall. intros item Hin.
        rewrite Forall_forall in IH. apply IH. exact Hin.
      * exists file_stats. split; [reflexivity | simpl; lia].
  - exists file_stats. simpl.
    destruct (max_depth <? depth)%nat; split; try reflexivity; lia.
Qed.

(** C9, as amended: the counts of the extension histogram add up to the
    number of files the statistics walk reaches: the files in the
    directories at depths 0 to 5 that can be enumerated, where no
    directory on the way is in the ignore set, and where the file and
    every directory on the way has a name that is not hidden or is one of
    [.env] and [.env.example]. *)
Theorem histogram_total_counts_reached_files
  (n : string) (listable : bool) (items : list entry) :
  exists file_stats,
    _scan_directory (Some (Dir n listable items)) = Ok file_stats
    /\ total file_stats
       = List.length (files_within considered 5 0 (Dir n listable items)).
Proof.
  destruct (@scan_entry_counts 5 (Dir n listable items) 0 [] eq_refl)
    as (file_stats & Hrun & Htot).
  exists file_stats. split; [exact Hrun | exact Htot].
Qed.

(** C9, as stated, fails: a project holding only [.env] has a histogram
    that counts one file, and no file that is not hidden. *)
Lemma histogram_counts_hidden_env_file :
  _scan_directory (Some env_only_project) = Ok [(EmptyString, 1)]
  /\ total [(EmptyString, 1)]
     <> List.length (files_within non_hidden 5 0 env_only_project).
Proof. split; [reflexivity | vm_compute; discriminate]. Qed.

(** ** The entry-point walk *)

Lemma walk_dirs_In {X : Type} keep (descend : entry -> list X) d items x :
  In d items -> is_dir d = true -> keep (entry_name d) = true ->
  In x (descend d) -> In x (walk_dirs keep descend items).
Proof.
  intros Hin Hdir Hkeep Hx.
  induction items as [|e rest IH]; simpl in *.
  - contradiction.
  - destruct Hin as [-> | Hin].
    + rewrite Hdir, Hkeep. simpl. apply in_or_app. left. exact Hx.
    + destruct (is_dir e && keep (entry_name e)).
      * apply in_or_app. right. apply IH. exact Hin.
      * apply IH. exact Hin.
Qed.

Lemma file_name_listed f c items :
  In (File f c) items -> In f (map entry_name (filter is_file items)).
Proof.
  intros Hin.
  change f with (entry_name (File f c)).
  apply in_map. apply filter_In. split; [exact Hin | reflexivity].
Qed.

(** The walk visits the directory of every file it can reach through
    directories it keeps, with the file among the names it yields. *)
Lemma os_walk_reaches keep items dirs f :
  file_at items dirs f ->
  Forall (fun d => keep d = true) dirs ->
  forall n rel,
  exists files,
    In (rel ++ dirs, files) (os_walk keep rel (Dir n true items))
    /\ In f files.
Proof.
  induction 1 as [items f c Hin | items d sub dirs f Hin Hsub IH];
    intros Hkeep n rel.
  - exists (map entry_name (filter is_file items)). split.
    + rewrite app_nil_r. simpl. left. reflexivity.
    + eapply file_name_listed. exact Hin.
  - inversion Hkeep as [|d' dirs' Hd Hdirs]; subst.
    destruct (IH Hdirs d (rel ++ [d])) as (files & Hwalk & Hf).
    exists files. split; [| exact Hf].
    simpl. right.
    apply walk_dirs_In with (d := Dir d true sub).
    + exact Hin.
    + reflexivity.
    + exact Hd.
    + simpl entry_name. rewrite <- app_assoc in Hwalk. exact Hwalk.
Qed.

Lemma walk_dirs_inv {X : Type} keep (descend : entry -> list X) items x :
  In x (walk_dirs keep descend items) ->
  exists d,
    In d items /\ is_dir d = true /\ keep (entry_name d) = true
    /\ In x (descend d).
Proof.
  induction items as [|e rest IH]; simpl; [contradiction |].
  destruct (is_dir e) eqn:Hdir, (keep (entry_name e)) eqn:Hkeep; simpl;
    intros Hx;
    try (destruct (IH Hx) as (d & Hin & H); exists d;
         split; [right; exact Hin | exact H]).
  apply in_app_or in Hx. destruct Hx as [Hx | Hx].
  - exists e. repeat split; try assumption. left. reflexivity.
  - destruct (IH Hx) as (d & Hin & H). exists d.
    split; [right; exact Hin | exact H].
Qed.

Lemma listed_file_name f items :
  In f (map entry_name (filter is_file items)) ->
  exists c, In (File f c) items.
Proof.
  intros Hin. apply in_map_iff in Hin. destruct Hin as (e & <- & He).
  apply filter_In in He. destruct He as [He Hfile].
  destruct e as [g c | d r sub | d]; try discriminate Hfile.
  exists c. exact He.
Qed.

(** The walk visits only directories reached through directories it
    keeps, and yields only names of files that are there. *)
Lemma os_walk_sound keep top : forall rel visited files,
  In (visited, files) (os_walk keep rel top) ->
  exists n items dirs,
    top = Dir n true items
    /\ visited = rel ++ dirs
    /\ Forall (fun d => keep d = true) dirs
    /\ forall f, In f files -> file_at items dirs f.
Proof.
  induction top as [g c | n r items IH | n] using entry_forall_ind;
    intros rel visited files Hin; [contradiction | | contradiction].
  - destruct r; [| contradiction].
    simpl in Hin. destruct Hin as [Hhead | Htail].
    + injection Hhead as <- <-.
      exists n, items, []. repeat split.
      * symmetry. apply app_nil_r.
      * constructor.
      * intros f Hf. apply listed_file_name in Hf. destruct Hf as (c & Hc).
        eapply file_here. exact Hc.
    + apply walk_dirs_inv in Htail.
      destruct Htail as (d & Hd & _ & Hkeep & Hin).
      rewrite Forall_forall in IH.
      destruct (IH d Hd _ _ _ Hin) as (n' & sub & dirs & -> & -> & Hdirs & Hfiles).
      exists n, items, (n' :: dirs). repeat split.
      * simpl entry_name. rewrite <- app_assoc. reflexivity.
      * constructor; assumption.
      * intros f Hf. eapply file_below; [exact Hd | apply Hfiles; exact Hf].
Qed.

(** Every entry point listed is a candidate-named file reached through
    directories outside the ignore set. *)
Lemma entry_points_sound n items p :
  In p (_find_entry_points (Some (Dir n true items))) ->
  exists dirs f,
    p = relpath dirs f
    /\ file_at items dirs f
    /\ Forall (fun d => ignored d = false) dirs
    /\ PyStr.mem f entry_candidates = true.
Proof.
  unfold _find_entry_points, walk. intros Hin.
  apply in_flat_map in Hin. destruct Hin as ([visited files] & Hwalk & Hp).
  simpl in Hp. apply in_map_iff in Hp. destruct Hp as (f & <- & Hf).
  apply filter_In in Hf. destruct Hf as [Hf Hcand].
  apply os_walk_sound in Hwalk.
  destruct Hwalk as (n' & items' & dirs & Htop & -> & Hdirs & Hfiles).
  injection Htop as <- <-.
  exists dirs, f. repeat split.
  - apply Hfiles. exact Hf.
  - eapply Forall_impl; [| exact Hdirs].
    intros d Hd. simpl in Hd. apply negb_true_iff in Hd. exact Hd.
  - exact Hcand.
Qed.

(** C10: a file whose name is an entry-point candidate is in the
    entry-point list with its path from the root, whatever the names of
    the directories on its way (hidden ones included), as long as those
    directories can be enumerated and none is in the ignore set. *)
Theorem entry_points_include_hidden_paths
  (n : string) (items : list entry) (dirs : list string) (f : string) :
  file_at items dirs f ->
  Forall (fun d => ignored d = false) dirs ->
  PyStr.mem f entry_candidates = true ->
  In (relpath dirs f) (_find_entry_points (Some (Dir n true items))).
Proof.
  intros Hat Hdirs Hcand.
  assert (Hkeep : Forall (fun d => negb (ignored d) = true) dirs).
  { eapply Forall_impl; [| exact Hdirs].
    intros d Hd. simpl in Hd. rewrite Hd. reflexivity. }
  destruct (os_walk_reaches (fun d => negb (ignored d)) Hat Hkeep n [])
    as (files & Hwalk & Hf).
  unfold _find_entry_points, walk.
  apply in_flat_map.
  exists ([] ++ dirs, files). split; [exact Hwalk |].
  simpl fst. simpl snd. simpl app.
  apply in_map. apply filter_In. split; [exact Hf | exact Hcand].
Qed.

(** C10 at a file inside a hidden directory. *)
Lemma entry_points_include_hidden_paths_witness :
  In ".tools/main.py"
     (_find_entry_points (Some (Dir "proj" true hidden_entry_project))).
Proof.
  apply (@entry_points_include_hidden_paths
           "proj" hidden_entry_project [".tools"] "main.py").
  - eapply file_below.
    + left. reflexivity.
    + eapply file_here. left. reflexivity.
  - repeat constructor.
  - reflexivity.
Defined.

(** ** The classifier *)

Lemma mem_In (x : string) (names : list string) :
  PyStr.mem x names = true <-> In x names.
Proof.
  unfold PyStr.mem. rewrite existsb_exists. split.
  - intros (y & Hin & Heq). apply String.eqb_eq in Heq. subst. exact Hin.
  - intros Hin. exists x. split; [exact Hin | apply String.eqb_refl].
Qed.

Lemma classify_manifest_labels pkg t :
  classify_manifest pkg = Ok (Some t) -> node_label t.
Proof.
  unfold classify_manifest, bind, node_label.
  destruct (py_in "dependencies" pkg) as [a|e]; [| discriminate].
  destruct (if a then Ok true else py_in "devDependencies" pkg) as [b|e];
    [| discriminate].
  destruct b; [| discriminate].
  destruct (py_get pkg "dependencies") as [d|e]; [| discriminate].
  destruct (py_get pkg "devDependencies") as [dd|e]; [| discriminate].
  destruct (py_merge d dd) as [deps|e]; [| discriminate].
  intros H. injection H as <-.
  destruct (dict_mem "react" deps || dict_mem "next" deps); [tauto |].
  destruct (dict_mem "vue" deps); [tauto |].
  destruct (dict_mem "express" deps); tauto.
Qed.

Lemma dict_mem_set {V : Type} k k' (v : V) d :
  dict_mem k (dict_set k' v d) = dict_mem k d || String.eqb k k'.
Proof.
  induction d as [|[k0 v0] d IH]; simpl.
  - apply orb_false_r.
  - destruct (String.eqb_spec k' k0) as [-> | Hne]; simpl.
    + destruct (String.eqb k k0), (dict_mem k d); reflexivity.
    + rewrite IH. apply orb_assoc.
Qed.

Lemma dict_mem_update {V : Type} k (b : dict V) : forall a,
  dict_mem k (fold_left (fun d kv => dict_set (fst kv) (snd kv) d) b a)
  = dict_mem k a || dict_mem k b.
Proof.
  induction b as [|[k0 v0] b IH]; intros a; simpl.
  - symmetry. apply orb_false_r.
  - rewrite IH, dict_mem_set. symmetry. apply orb_assoc.
Qed.

Lemma dict_mem_keys {V : Type} k (d : dict V) :
  dict_mem k d = PyStr.mem k (dict_keys d).
Proof.
  unfold dict_mem, PyStr.mem, dict_keys.
  induction d as [|kv d IH]; simpl; [reflexivity | rewrite IH; reflexivity].
Qed.

Lemma mem_app k a b : PyStr.mem k (a ++ b) = PyStr.mem k a || PyStr.mem k b.
Proof. apply existsb_app. Qed.

(** A manifest that is an object with a dependency section, both sections
    being objects where present, is labelled from the names of the two
    sections: react or next first, then vue, then express, else Node. *)
Lemma classify_manifest_sections kv d dd :
  dict_mem "dependencies" kv || dict_mem "devDependencies" kv = true ->
  py_get (JObj kv) "dependencies" = Ok (JObj d) ->
  py_get (JObj kv) "devDependencies" = Ok (JObj dd) ->
  classify_manifest (JObj kv)
  = Ok (Some (label_of_names (dict_keys d ++ dict_keys dd))).
Proof.
  intros Hsection Hd Hdd.
  unfold classify_manifest. cbn [py_in bind].
  replace (if dict_mem "dependencies" kv then Ok true
           else Ok (dict_mem "devDependencies" kv))
    with (@Ok bool true)
    by (destruct (dict_mem "dependencies" kv);
        [reflexivity | simpl in Hsection; rewrite Hsection; reflexivity]).
  rewrite Hd, Hdd. cbn [py_merge bind].
  unfold label_of_names.
  rewrite !dict_mem_update, !mem_app, !dict_mem_keys. reflexivity.
Qed.

(** A manifest that cannot be loaded gives the JavaScript label. *)
Lemma node_rule_parse_failure project_path e :
  json_load (child project_path "package.json") = Raise e ->
  node_rule project_path = Some JavaScript.
Proof. intros H. unfold node_rule, bind. rewrite H. reflexivity. Qed.

Lemma node_rule_never_rust project_path : node_rule project_path <> Some Rust.
Proof.
  unfold node_rule.
  destruct (pkg <- json_load (child project_path "package.json");;
            classify_manifest pkg) as [[t|]|e] eqn:Hrun;
    try discriminate.
  unfold bind in Hrun.
  destruct (json_load (child project_path "package.json")) as [pkg|e];
    [| discriminate].
  apply classify_manifest_labels in Hrun.
  intros Heq. injection Heq as ->.
  destruct Hrun as [H | [H | [H | H]]]; discriminate H.
Qed.

(** C1 at a manifest holding [{}], which loads and has no dependency
    section: the classifier assigns no project type at all, where the
    generic Node label is expected. *)
Theorem classifier_assigns_nothing_without_dependency_keys
  (file_stats : histogram) :
  json_load (child (Some bare_node_project) "package.json") = Ok (JObj [])
  /\ _identify_project_type (Some bare_node_project) file_stats = Ok None.
Proof. split; reflexivity. Qed.

(** C2 at the same project, an existing directory that can be read: the
    run ends with [AttributeError] when [analyze] reads the project type,
    and no report is returned. *)
Theorem analyze_raises_on_manifest_without_dependency_keys :
  readable_directory (Some bare_node_project) = true
  /\ analyze (Some bare_node_project)
     = ([ScanDirectory; IdentifyProjectType; FindEntryPoints;
         AnalyzeConfigFiles; AnalyzeDependencies],
        Raise AttributeError)
  /\ main ["analyze_project.py"; "proj"] (fun _ => Some bare_node_project)
     = ([ScanDirectory; IdentifyProjectType; FindEntryPoints;
         AnalyzeConfigFiles; AnalyzeDependencies],
        Uncaught AttributeError).
Proof. repeat split. Qed.

(** C7: with both [package.json] and [Cargo.toml] among the files of the
    root, the project type is the one the manifest rule gives, and that is
    never the Rust label. *)
Theorem node_manifest_wins_over_rust
  (n : string) (items : list entry) (file_stats : histogram) :
  let root := Some (Dir n true items) in
  In "package.json" (root_file_names root) ->
  In "Cargo.toml" (root_file_names root) ->
  _identify_project_type root file_stats = Ok (node_rule root)
  /\ _identify_project_type root file_stats <> Ok (Some Rust).
Proof.
  intros root Hnode _.
  assert (Hrun : _identify_project_type root file_stats = Ok (node_rule root)).
  { unfold _identify_project_type, root. simpl iterdir. unfold bind.
    apply mem_In in Hnode. simpl root_file_names in Hnode.
    rewrite Hnode. reflexivity. }
  split; [exact Hrun |].
  rewrite Hrun. intros Heq. injection Heq as Heq.
  exact (node_rule_never_rust _ Heq).
Qed.

(** C7 at a project with both manifests, whose Node manifest names
    express. *)
Lemma node_manifest_wins_over_rust_witness :
  _identify_project_type (Some (Dir "proj" true two_manifests)) []
  = Ok (Some NodeExpress)
  /\ _identify_project_type (Some (Dir "proj" true two_manifests)) []
     <> Ok (Some Rust).
Proof.
  destruct (@node_manifest_wins_over_rust "proj" two_manifests [])
    as [Hrun Hnot].
  - simpl. right. left. reflexivity.
  - simpl. left. reflexivity.
  - split; [rewrite Hrun; reflexivity | exact Hnot].
Defined.

(** ** The config cataloger *)

(** C4 at a project whose [node_modules] directory holds a manifest: the
    catalog lists that file, although its path passes through a directory
    of the ignore set and the entry-point walk leaves it out. *)
Theorem config_catalog_lists_ignored_directory :
  ignored "node_modules" = true
  /\ _analyze_config_files (Some project_with_cache)
     = [("node_modules/package.json", "Node.js dependencies and scripts")]
  /\ _find_entry_points (Some project_with_cache) = ["app.py"].
Proof. repeat split. Qed.

(** ** The command line *)

(** C3, as amended: only a missing path argument is checked before the
    analysis: the usage message and exit code 1, with no step entered.
    A path that is given but names nothing, a file, or a directory that
    cannot be enumerated is not validated: the statistics walk is entered
    first, and the run ends with an exception that nobody catches, so no
    report is printed.  For a path that names nothing or a file the
    exception is that of the walk; for a directory that cannot be
    enumerated the walk passes over its [PermissionError] and the
    classifier's own enumeration raises it. *)
Theorem only_missing_argument_is_checked
  (argv : list string) (resolve : string -> option entry) :
  (List.length argv < 2 -> main argv resolve = ([], Exit 1 usage))
  /\ (2 <= List.length argv ->
      readable_directory (resolve (nth 1 argv EmptyString)) = false ->
      exists e entered,
        main argv resolve = (ScanDirectory :: entered, Uncaught e)
        /\ match resolve (nth 1 argv EmptyString) with
           | None => e = FileNotFoundError /\ entered = []
           | Some (File _ _) => e = NotADirectoryError /\ entered = []
           | Some _ => e = PermissionError /\ entered = [IdentifyProjectType]
           end).
Proof.
  split.
  - intros Hshort. unfold main.
    apply Nat.ltb_lt in Hshort. rewrite Hshort. reflexivity.
  - intros Hlong Hbad. unfold main.
    replace (List.length argv <? 2)%nat with false
      by (symmetry; apply Nat.ltb_ge; exact Hlong).
    destruct (resolve (nth 1 argv EmptyString))
      as [[f c | n [|] items | n]|].
    + exists NotADirectoryError, []. repeat split.
    + discriminate Hbad.
    + exists PermissionError, [IdentifyProjectType]. repeat split.
    + exists PermissionError, [IdentifyProjectType]. repeat split.
    + exists FileNotFoundError, []. repeat split.
Qed.

(** C3 without an argument, and at a directory that cannot be enumerated. *)
Lemma only_missing_argument_is_checked_witness :
  main ["analyze_project.py"] locked = ([], Exit 1 usage)
  /\ exists e entered,
       main ["analyze_project.py"; "proj"] locked
       = (ScanDirectory :: entered, Uncaught e).
Proof.
  split.
  - apply (proj1 (only_missing_argument_is_checked
                    ["analyze_project.py"] locked)).
    simpl. lia.
  - destruct (proj2 (only_missing_argument_is_checked
                       ["analyze_project.py"; "proj"] locked))
      as (e & entered & Hrun & _).
    + simpl. lia.
    + reflexivity.
    + exists e, entered. exact Hrun.
Defined.

(** C3, as stated, fails: for a path that names nothing the statistics
    walk is entered and its [FileNotFoundError] ends the run; there is no
    exit with a message before any step. *)
Lemma nonexistent_root_is_walked_first :
  readable_directory (nothing "missing") = false
  /\ main ["analyze_project.py"; "missing"] nothing
     = ([ScanDirectory], Uncaught FileNotFoundError)
  /\ ~ (exists code message,
          main ["analyze_project.py"; "missing"] nothing
          = ([], Exit code message)).
Proof.
  split; [reflexivity |]. split; [reflexivity |].
  intros (code & message & H). discriminate H.
Qed.

(** ** The dependency extractor *)

(** The keys read off a section are the names the manifest declares. *)
Lemma section_keys pkg section v names :
  py_get pkg section = Ok v -> py_keys v = Ok names ->
  names = declared pkg section.
Proof.
  destruct pkg as [| | | | |kv]; simpl; try discriminate.
  unfold declared.
  destruct (dict_get section kv) as [x|]; intros Hget Hkeys;
    injection Hget as <-.
  - destruct x; simpl in Hkeys; try discriminate.
    injection Hkeys as <-. reflexivity.
  - simpl in Hkeys. injection Hkeys as <-. reflexivity.
Qed.

Lemma npm_dependencies_spec pkg_json prod dev :
  npm_dependencies pkg_json = Ok (prod, dev) ->
  exists pkg,
    json_load pkg_json = Ok pkg
    /\ prod = firstn 10 (declared pkg "dependencies")
    /\ dev = firstn 10 (declared pkg "devDependencies").
Proof.
  unfold npm_dependencies, bind.
  destruct (json_load pkg_json) as [pkg|e]; [| discriminate].
  destruct (py_get pkg "dependencies") as [deps|e] eqn:Hdeps;
    [| discriminate].
  destruct (py_get pkg "devDependencies") as [dev_deps|e] eqn:Hdev;
    [| discriminate].
  destruct (py_keys deps) as [names|e] eqn:Hnames; [| discriminate].
  destruct (py_keys dev_deps) as [dev_names|e] eqn:Hdev_names;
    [| discriminate].
  intros H. injection H as <- <-.
  exists pkg. split; [reflexivity |].
  rewrite (section_keys _ _ Hdeps Hnames).
  rewrite (section_keys _ _ Hdev Hdev_names).
  split; reflexivity.
Qed.

(** [_analyze_dependencies] returns on every root but a directory that
    cannot be searched. *)
Lemma analyze_dependencies_returns (project_path : option entry) :
  (forall n, project_path <> Some (Locked n)) ->
  _analyze_dependencies project_path
  = Ok {| npm := if exists_ (child project_path "package.json")
                 then on_success
                        (npm_dependencies (child project_path "package.json"))
                 else None;
          pip := if exists_ (child project_path "requirements.txt")
                 then on_success
                        (pip_dependencies
                           (child project_path "requirements.txt"))
                 else None |}.
Proof.
  intros Hroot. unfold _analyze_dependencies, lookup.
  destruct project_path as [[f c | d r sub | d]|]; try reflexivity.
  exfalso. exact (Hroot d eq_refl).
Qed.

Lemma analyze_dependencies_raises (project_path : option entry) (e : exn) :
  _analyze_dependencies project_path = Raise e ->
  e = PermissionError /\ exists n, project_path = Some (Locked n).
Proof.
  unfold _analyze_dependencies, lookup.
  destruct project_path as [[f c | d r sub | d]|]; try discriminate.
  cbn [bind]. intros H. injection H as <-.
  split; [reflexivity | exists d; reflexivity].
Qed.

(** C5: when the report has an npm entry, its two lists are the first 10
    names of the manifest's [dependencies] and of its [devDependencies],
    in the manifest's order; when it has a pip entry, the list is the first
    15 names of the requirements file, in the file's order.  None is
    longer than its cap.  The method returns the entries on every root
    but one that cannot be searched, where it raises [PermissionError]. *)
Theorem dependency_lists_are_capped_prefixes (project_path : option entry) :
  (forall deps,
     _analyze_dependencies project_path = Ok deps ->
     (forall prod dev,
        npm deps = Some (prod, dev) ->
        exists pkg,
          json_load (child project_path "package.json") = Ok pkg
          /\ prod = firstn 10 (declared pkg "dependencies")
          /\ dev = firstn 10 (declared pkg "devDependencies")
          /\ List.length prod <= 10 /\ List.length dev <= 10)
     /\ (forall names,
           pip deps = Some names ->
           exists f c,
             child project_path "requirements.txt" = Some (File f c)
             /\ unreadable c = None
             /\ names
                = firstn 15 (requirement_names (PyStr.readlines (text c)))
             /\ List.length names <= 15))
  /\ (forall e,
        _analyze_dependencies project_path = Raise e ->
        e = PermissionError /\ exists n, project_path = Some (Locked n)).
Proof.
  split; [| apply analyze_dependencies_raises].
  intros deps Hrun.
  assert (Hroot : forall n, project_path <> Some (Locked n)).
  { intros n ->. discriminate Hrun. }
  rewrite (analyze_dependencies_returns Hroot) in Hrun.
  injection Hrun as <-. split.
  - intros prod dev. cbn [npm].
    destruct (exists_ (child project_path "package.json")); [| discriminate].
    destruct (npm_dependencies (child project_path "package.json"))
      as [[p d]|e] eqn:Hrun; [| discriminate].
    simpl. intros H. injection H as <- <-.
    destruct (npm_dependencies_spec _ Hrun) as (pkg & Hload & -> & ->).
    exists pkg. repeat split; try assumption; apply firstn_le_length.
  - intros names. cbn [pip].
    destruct (child project_path "requirements.txt")
      as [[f c | d [|] sub | d]|];
      unfold exists_, pip_dependencies, on_success; try discriminate.
    destruct (unreadable c) as [e|] eqn:Hread; [discriminate |].
    intros H.
    assert (Hnames : names
                     = firstn 15 (requirement_names
                                    (PyStr.readlines (text c))))
      by congruence.
    exists f, c. split; [reflexivity |]. split; [exact Hread |].
    split; [exact Hnames |].
    rewrite Hnames. apply firstn_le_length.
Qed.

(** C5 at a manifest with twelve dependencies beside a requirements file. *)
Lemma dependency_lists_are_capped_prefixes_witness :
  _analyze_dependencies crowded_project
  = Ok {| npm := Some (["a"; "b"; "c"; "d"; "e"; "f"; "g"; "h"; "i"; "j"],
                       ["jest"]);
          pip := Some ["flask"; "requests"] |}
  /\ (exists pkg,
        json_load (child crowded_project "package.json") = Ok pkg
        /\ List.length (declared pkg "dependencies") = 12)
  /\ (exists f c,
        child crowded_project "requirements.txt" = Some (File f c)
        /\ List.length (PyStr.readlines (text c)) = 4).
Proof.
  split; [reflexivity |].
  destruct (proj1 (dependency_lists_are_capped_prefixes crowded_project)
              _ eq_refl)
    as [Hnpm Hpip].
  split.
  - destruct (Hnpm _ _ eq_refl) as (pkg & Hload & _).
    exists pkg. split; [exact Hload |].
    injection Hload as <-. reflexivity.
  - destruct (Hpip _ eq_refl) as (f & c & Hchild & _).
    exists f, c. split; [exact Hchild |].
    injection Hchild as <- <-. reflexivity.
Defined.

(** ** The requirements parser *)

Lemma first_operator_unfold c s :
  first_operator (String c s)
  = if String.prefix "==" (String c s) || String.prefix ">=" (String c s)
    then Some 0 else option_map S (first_operator s).
Proof. reflexivity. Qed.

Lemma split_head_unfold sep c s :
  PyStr.split_head sep (String c s)
  = if String.prefix sep (String c s) then EmptyString
    else String c (PyStr.split_head sep s).
Proof. reflexivity. Qed.

(** When the first operator comes after the first character, none starts
    at that character. *)
Lemma first_operator_later c s k :
  first_operator (String c s) = Some (S k) ->
  String.prefix "==" (String c s) = false
  /\ String.prefix ">=" (String c s) = false
  /\ first_operator s = Some k.
Proof.
  rewrite first_operator_unfold.
  destruct (String.prefix "==" (String c s)); [discriminate |].
  destruct (String.prefix ">=" (String c s)); [discriminate |].
  simpl orb. cbv iota.
  destruct (first_operator s) as [j|]; [| discriminate].
  intros H. injection H as ->. repeat split.
Qed.

Lemma prefix_empty s : String.prefix EmptyString s = true.
Proof. destruct s; reflexivity. Qed.

Lemma prefix_cons a p c s :
  String.prefix (String a p) (String c s)
  = if ascii_dec a c then String.prefix p s else false.
Proof. reflexivity. Qed.

Lemma prefix_app p : forall a t,
  String.prefix p a = true -> String.prefix p (a ++ t)%string = true.
Proof.
  induction p as [|x p IH]; intros a t H.
  - apply prefix_empty.
  - destruct a as [|y a]; simpl in *; [discriminate |].
    destruct (ascii_dec x y); [| discriminate].
    apply IH. exact H.
Qed.

(** Whether a two-character operator starts at a position depends on the
    two characters there. *)
Lemma prefix_two a b c d x y :
  String.prefix (String a (String b EmptyString)) (String c (String d x))
  = String.prefix (String a (String b EmptyString)) (String c (String d y)).
Proof.
  simpl. destruct (ascii_dec a c); [| reflexivity].
  destruct (ascii_dec b d); [| reflexivity].
  rewrite !prefix_empty. reflexivity.
Qed.

(** Splitting at [==] when it is the first operator. *)
Lemma split_head_at_equals name : forall version,
  first_operator (name ++ "==" ++ version)%string = Some (String.length name) ->
  PyStr.split_head "==" (name ++ "==" ++ version)%string = name.
Proof.
  induction name as [|c name IH]; intros version H.
  - simpl. rewrite prefix_empty. reflexivity.
  - change ((String c name ++ "==" ++ version)%string)
      with (String c (name ++ "==" ++ version)%string) in *.
    simpl String.length in H.
    apply first_operator_later in H. destruct H as (Heq & _ & Hrest).
    rewrite split_head_unfold, Heq. f_equal. apply IH. exact Hrest.
Qed.

(** No [>=] starts inside the part before the first operator. *)
Lemma split_head_before_operator name : forall tail,
  first_operator (name ++ tail)%string = Some (String.length name) ->
  PyStr.split_head ">=" name = name.
Proof.
  induction name as [|c name IH]; intros tail H.
  - reflexivity.
  - change ((String c name ++ tail)%string)
      with (String c (name ++ tail)%string) in H.
    simpl String.length in H.
    apply first_operator_later in H. destruct H as (_ & Hge & Hrest).
    rewrite split_head_unfold.
    destruct (String.prefix ">=" (String c name)) eqn:Hp.
    + apply prefix_app with (t := tail) in Hp.
      change ((String c name ++ tail)%string)
        with (String c (name ++ tail)%string) in Hp.
      congruence.
    + f_equal. apply IH with (tail := tail). exact Hrest.
Qed.

(** Splitting at [>=] when it is the first operator, whatever follows. *)
Lemma split_head_at_greater name : forall version rest,
  first_operator (name ++ ">=" ++ version)%string = Some (String.length name) ->
  PyStr.split_head ">=" (name ++ ">=" ++ rest)%string = name.
Proof.
  induction name as [|c name IH]; intros version rest H.
  - simpl. rewrite prefix_empty. reflexivity.
  - change ((String c name ++ ">=" ++ version)%string)
      with (String c (name ++ ">=" ++ version)%string) in H.
    change ((String c name ++ ">=" ++ rest)%string)
      with (String c (name ++ ">=" ++ rest)%string).
    simpl String.length in H.
    apply first_operator_later in H. destruct H as (_ & Hge & Hrest).
    assert (Hsame :
              String.prefix ">=" (String c (name ++ ">=" ++ rest)%string)
              = String.prefix ">=" (String c (name ++ ">=" ++ version)%string))
      by (destruct name as [|d name]; apply prefix_two).
    rewrite split_head_unfold, Hsame, Hge.
    f_equal. apply IH with (version := version). exact Hrest.
Qed.

(** Splitting at [==] passes a first [>=] that no [=] follows. *)
Lemma split_head_past_greater name : forall version,
  first_operator (name ++ ">=" ++ version)%string = Some (String.length name) ->
  PyStr.startswith version "=" = false ->
  PyStr.split_head "==" (name ++ ">=" ++ version)%string
  = (name ++ ">=" ++ PyStr.split_head "==" version)%string.
Proof.
  induction name as [|c name IH]; intros version H Hv.
  - change (("" ++ ">=" ++ version)%string)
      with (String ">" (String "=" version)).
    rewrite split_head_unfold.
    change (String.prefix "==" (String ">" (String "=" version)))
      with false.
    cbv iota.
    assert (Hsame : String.prefix "==" (String "=" version)
                    = PyStr.startswith version "=").
    { unfold PyStr.startswith.
      destruct version as [|b version]; [reflexivity |].
      simpl. destruct (ascii_dec "=" b); reflexivity. }
    rewrite split_head_unfold, Hsame, Hv. reflexivity.
  - change ((String c name ++ ">=" ++ version)%string)
      with (String c (name ++ ">=" ++ version)%string) in *.
    simpl String.length in H.
    apply first_operator_later in H. destruct H as (Heq & _ & Hrest).
    rewrite split_head_unfold, Heq.
    change ((String c name ++ ">=" ++ PyStr.split_head "==" version)%string)
      with (String c (name ++ ">=" ++ PyStr.split_head "==" version)%string).
    f_equal. apply IH; assumption.
Qed.

Lemma rstrip_empty s : PyStr.rstrip s = EmptyString -> all_space s = true.
Proof.
  induction s as [|c s IH]; simpl; [reflexivity |].
  destruct (PyStr.rstrip s); [| discriminate].
  destruct (PyStr.isspace c); [| discriminate].
  intros _. apply IH. reflexivity.
Qed.

Lemma lstrip_all_space s : all_space (PyStr.lstrip s) = true -> all_space s = true.
Proof.
  induction s as [|c s IH]; simpl; [reflexivity |].
  destruct (PyStr.isspace c) eqn:Hc; simpl.
  - exact IH.
  - rewrite Hc. discriminate.
Qed.

Lemma strip_empty s : PyStr.strip s = EmptyString -> all_space s = true.
Proof.
  intros H. apply lstrip_all_space, rstrip_empty. exact H.
Qed.

Lemma all_space_app a b :
  all_space (a ++ b)%string = all_space a && all_space b.
Proof.
  induction a as [|c a IH]; simpl; [reflexivity |].
  rewrite IH. apply andb_assoc.
Qed.

(** A line with an operator in it is not blank. *)
Lemma pinned_line_not_blank name op version :
  op = "==" \/ op = ">=" ->
  String.eqb (PyStr.strip (name ++ op ++ version)%string) EmptyString = false.
Proof.
  intros Hop. apply String.eqb_neq. intros Hblank.
  apply strip_empty in Hblank.
  rewrite !all_space_app in Hblank.
  apply andb_prop in Hblank. destruct Hblank as [_ Hblank].
  apply andb_prop in Hblank. destruct Hblank as [Hblank _].
  destruct Hop as [-> | ->]; discriminate Hblank.
Qed.

(** Nor is it a comment, unless the name starts one. *)
Lemma pinned_line_not_comment name op version :
  op = "==" \/ op = ">=" ->
  PyStr.startswith name "#" = false ->
  PyStr.startswith (name ++ op ++ version)%string "#" = false.
Proof.
  unfold PyStr.startswith. intros Hop Hname.
  destruct name as [|c name].
  - destruct Hop as [-> | ->]; reflexivity.
  - change ((String c name ++ op ++ version)%string)
      with (String c (name ++ op ++ version)%string).
    rewrite prefix_cons in *.
    destruct (ascii_dec "#" c); [| reflexivity].
    rewrite prefix_empty in Hname. discriminate Hname.
Qed.

Lemma lstrip_clean s : clean_head (PyStr.lstrip s).
Proof.
  induction s as [|c s IH]; simpl; [exact I |].
  destruct (PyStr.isspace c) eqn:Hc; [exact IH | exact Hc].
Qed.

Lemma rstrip_clean s : clean_head s -> clean_head (PyStr.rstrip s).
Proof.
  destruct s as [|c s]; simpl; [trivial |].
  intros Hc. rewrite Hc. destruct (PyStr.rstrip s); exact Hc.
Qed.

Lemma clean_lstrip s : clean_head s -> PyStr.lstrip s = s.
Proof.
  destruct s as [|c s]; simpl; [reflexivity |].
  intros ->. reflexivity.
Qed.

(** *** Trimming *)

Lemma all_space_lstrip s : all_space s = true -> PyStr.lstrip s = EmptyString.
Proof.
  induction s as [|c s IH]; simpl; [reflexivity |].
  intros H. apply andb_prop in H. destruct H as [-> H]. apply IH. exact H.
Qed.

Lemma all_space_rstrip s : all_space s = true -> PyStr.rstrip s = EmptyString.
Proof.
  induction s as [|c s IH]; simpl; [reflexivity |].
  intros H. apply andb_prop in H. destruct H as [-> H].
  rewrite (IH H). reflexivity.
Qed.

Lemma lstrip_app_space l s :
  all_space l = true -> PyStr.lstrip (l ++ s)%string = PyStr.lstrip s.
Proof.
  induction l as [|c l IH]; simpl; [reflexivity |].
  intros H. apply andb_prop in H. destruct H as [-> H]. apply IH. exact H.
Qed.

Lemma rstrip_cons c s :
  PyStr.rstrip (String c s)
  = match PyStr.rstrip s with
    | EmptyString =>
        if PyStr.isspace c then EmptyString else String c EmptyString
    | String d r => String c (String d r)
    end.
Proof. simpl. destruct (PyStr.rstrip s); reflexivity. Qed.

Lemma rstrip_app_space s r :
  all_space r = true -> PyStr.rstrip (s ++ r)%string = PyStr.rstrip s.
Proof.
  intros Hr. induction s as [|c s IH].
  - simpl. rewrite (@all_space_rstrip _ Hr). reflexivity.
  - change ((String c s ++ r)%string) with (String c (s ++ r)%string).
    rewrite !rstrip_cons, IH. reflexivity.
Qed.

Lemma clean_rstrip s : clean_last s -> PyStr.rstrip s = s.
Proof.
  induction s as [|c s IH]; [reflexivity |].
  rewrite rstrip_cons. destruct s as [|d s].
  - simpl. intros ->. reflexivity.
  - intros H. change (clean_last (String d s)) in H.
    rewrite (IH H). reflexivity.
Qed.

Lemma rstrip_clean_last s : clean_last (PyStr.rstrip s).
Proof.
  induction s as [|c s IH]; [exact I |].
  rewrite rstrip_cons. destruct (PyStr.rstrip s) as [|d r].
  - destruct (PyStr.isspace c) eqn:Hc; [exact I | exact Hc].
  - exact IH.
Qed.

Lemma lstrip_cuts_space s :
  exists l, s = (l ++ PyStr.lstrip s)%string /\ all_space l = true.
Proof.
  induction s as [|c s (l & IH & Hl)].
  - exists EmptyString. split; reflexivity.
  - simpl. destruct (PyStr.isspace c) eqn:Hc.
    + exists (String c l). simpl. rewrite <- IH, Hc, Hl. split; reflexivity.
    + exists EmptyString. split; reflexivity.
Qed.

Lemma rstrip_cuts_space s :
  exists r, s = (PyStr.rstrip s ++ r)%string /\ all_space r = true.
Proof.
  induction s as [|c s (r & IH & Hr)].
  - exists EmptyString. split; reflexivity.
  - rewrite rstrip_cons. destruct (PyStr.rstrip s) as [|d t].
    + destruct (PyStr.isspace c) eqn:Hc.
      * exists (String c r). simpl in IH. subst s. simpl. rewrite Hc, Hr.
        split; reflexivity.
      * exists r. simpl in IH. subst s. split; [reflexivity | exact Hr].
    + exists r. split; [| exact Hr].
      change ((String c (String d t) ++ r)%string)
        with (String c (String d t ++ r)%string).
      rewrite <- IH. reflexivity.
Qed.

(** [strip] trims: its result is the string without the white space at
    its two ends. *)
Lemma strip_trims s : trimmed s (PyStr.strip s).
Proof.
  unfold PyStr.strip.
  destruct (lstrip_cuts_space s) as (l & Hl & Hspace_l).
  destruct (rstrip_cuts_space (PyStr.lstrip s)) as (r & Hr & Hspace_r).
  exists l, r. repeat split.
  - rewrite <- Hr. exact Hl.
  - exact Hspace_l.
  - exact Hspace_r.
  - apply rstrip_clean, lstrip_clean.
  - apply rstrip_clean_last.
Qed.

(** There is one trimmed string only, and [strip] gives it. *)
Lemma trimmed_is_strip s t : trimmed s t -> PyStr.strip s = t.
Proof.
  intros (l & r & -> & Hl & Hr & Hhead & Hlast).
  unfold PyStr.strip. rewrite (@lstrip_app_space _ _ Hl).
  destruct t as [|c t].
  - simpl. rewrite (@all_space_lstrip _ Hr). reflexivity.
  - rewrite clean_lstrip.
    + rewrite (@rstrip_app_space _ _ Hr). apply clean_rstrip. exact Hlast.
    + exact Hhead.
Qed.

(** *** The two cuts *)

(** Splitting at [==] when [>==] is the first operator: the [>] stays. *)
Lemma split_head_at_overlap name : forall version,
  first_operator (name ++ ">=" ++ "=" ++ version)%string
  = Some (String.length name) ->
  PyStr.split_head "==" (name ++ ">=" ++ "=" ++ version)%string
  = (name ++ ">")%string.
Proof.
  induction name as [|c name IH]; intros version H.
  - simpl. rewrite prefix_empty. reflexivity.
  - change ((String c name ++ ">=" ++ "=" ++ version)%string)
      with (String c (name ++ ">=" ++ "=" ++ version)%string) in *.
    simpl String.length in H.
    apply first_operator_later in H. destruct H as (Heq & _ & Hrest).
    rewrite split_head_unfold, Heq.
    change ((String c name ++ ">")%string) with (String c (name ++ ">")%string).
    f_equal. apply IH. exact Hrest.
Qed.

(** No [>=] is left in the name with the [>]. *)
Lemma split_head_keeps_greater name : forall tail,
  first_operator (name ++ ">=" ++ tail)%string = Some (String.length name) ->
  PyStr.split_head ">=" (name ++ ">")%string = (name ++ ">")%string.
Proof.
  induction name as [|c name IH]; intros tail H.
  - reflexivity.
  - change ((String c name ++ ">=" ++ tail)%string)
      with (String c (name ++ ">=" ++ tail)%string) in H.
    change ((String c name ++ ">")%string) with (String c (name ++ ">")%string).
    simpl String.length in H.
    apply first_operator_later in H. destruct H as (_ & Hge & Hrest).
    assert (Hnone : String.prefix ">=" (String c (name ++ ">")%string) = false).
    { destruct name as [|d name].
      - change (("" ++ ">")%string) with ">"%string.
        rewrite prefix_cons. destruct (ascii_dec ">" c); reflexivity.
      - etransitivity; [| exact Hge].
        change ((String d name ++ ">")%string)
          with (String d (name ++ ">")%string).
        change ((String d name ++ ">=" ++ tail)%string)
          with (String d (name ++ ">=" ++ tail)%string).
        apply prefix_two. }
    rewrite split_head_unfold, Hnone.
    f_equal. apply IH with (tail := tail). exact Hrest.
Qed.

Lemma all_space_strip s : all_space s = true -> PyStr.strip s = EmptyString.
Proof.
  intros H. unfold PyStr.strip. rewrite (@all_space_lstrip _ H). reflexivity.
Qed.

(** What the comprehension makes of one line of each form. *)
Lemma line_form_entries line names :
  line_form line names ->
  map requirement_name (filter requirement_line [line]) = names.
Proof.
  intros Hform. simpl filter. unfold requirement_line.
  destruct Hform as [name op version t Hop Hfirst Hname Ht
                    | name version t Hfirst Hname Ht
                    | line Hblank
                    | line Hcomment].
  - assert (Hop' : op = "==" \/ op = ">=") by tauto.
    rewrite (pinned_line_not_blank name version Hop').
    rewrite (pinned_line_not_comment name version Hop' Hname).
    simpl. f_equal. unfold requirement_name.
    rewrite <- (trimmed_is_strip Ht). f_equal.
    destruct Hop as [-> | [-> Hversion]].
    + rewrite (split_head_at_equals _ _ Hfirst).
      apply split_head_before_operator with (tail := ("==" ++ version)%string).
      exact Hfirst.
    + rewrite (split_head_past_greater _ _ Hfirst Hversion).
      apply split_head_at_greater with (version := version).
      exact Hfirst.
  - rewrite (pinned_line_not_blank name ("=" ++ version)%string
               (or_intror eq_refl)).
    rewrite (pinned_line_not_comment name ("=" ++ version)%string
               (or_intror eq_refl) Hname).
    simpl. f_equal. unfold requirement_name.
    rewrite <- (trimmed_is_strip Ht). f_equal.
    change (name ++ String ">" (String "=" (String "=" version)))%string
      with (name ++ ">=" ++ "=" ++ version)%string.
    rewrite (@split_head_at_overlap _ _ Hfirst).
    apply split_head_keeps_greater with (tail := ("=" ++ version)%string).
    exact Hfirst.
  - rewrite (@all_space_strip _ Hblank). reflexivity.
  - rewrite Hcomment. rewrite andb_false_r. reflexivity.
Qed.

(** C6, as stated, fails: in the line [a>==1] the name [a] is followed by
    [>=], the first operator of the line, and by the version [=1]; the
    entry is not the name [a] but [a>], because the line is cut at its
    first [==] before it is cut at [>=]. *)
Lemma greater_equals_equals_keeps_greater :
  "a>==1"%string = ("a" ++ ">=" ++ "=1")%string
  /\ first_operator "a>==1" = Some (String.length "a")
  /\ trimmed "a" "a"
  /\ requirement_names ["a>==1"%string] = ["a>"%string]
  /\ requirement_names ["a>==1"%string] <> ["a"%string].
Proof.
  split; [reflexivity |]. split; [reflexivity |]. split.
  - exists EmptyString, EmptyString. repeat split.
  - split; [reflexivity | discriminate].
Qed.

(** C6, as amended: in a requirements file, a line [name==version], or
    [name>=version] with a version that does not begin with [=], whose
    operator is the first of the line, yields the name without the white
    space at its two ends; a line [name>==version] yields the name with
    the [>], trimmed likewise; a line of white space only and a line
    starting with [#] yield nothing.  The entries of the lines before and
    after are not affected. *)
Theorem requirement_lines_yield_names
  (before after : list string) (line : string) (names : list string) :
  line_form line names ->
  requirement_names (before ++ line :: after)
  = requirement_names before ++ names ++ requirement_names after.
Proof.
  intros Hform. unfold requirement_names.
  change (line :: after) with ([line] ++ after).
  rewrite !filter_app, !map_app.
  rewrite (line_form_entries Hform). reflexivity.
Qed.

(** C6 at the line [ requests >= 2.0], after a comment and the line
    [flask==2.0.1] and before a blank line. *)
Lemma requirement_lines_yield_names_witness :
  line_form (" requests " ++ ">=" ++ (" 2.0" ++ newline))%string
    ["requests"%string]
  /\ requirement_names
       [("# comment" ++ newline)%string; ("flask==2.0.1" ++ newline)%string;
        (" requests >= 2.0" ++ newline)%string; newline]
     = ["flask"%string; "requests"%string].
Proof.
  assert (Hform : line_form
                    (" requests " ++ ">=" ++ (" 2.0" ++ newline))%string
                    ["requests"%string]).
  { apply (@pinned " requests " ">=" (" 2.0" ++ newline)%string "requests").
    - right. split; reflexivity.
    - reflexivity.
    - reflexivity.
    - exists " "%string, " "%string. repeat split. }
  split; [exact Hform |].
  exact (@requirement_lines_yield_names
           [("# comment" ++ newline)%string; ("flask==2.0.1" ++ newline)%string]
           [newline] _ _ Hform).
Defined.

(** ** The tree renderer *)

(** *** The order of the sort key *)

Lemma string_leb_trans a : forall b c,
  String.leb a b = true -> String.leb b c = true -> String.leb a c = true.
Proof.
  unfold String.leb.
  induction a as [|x a IH]; intros [|y b] [|z c] Hab Hbc; simpl in *;
    try reflexivity; try discriminate.
  unfold Ascii.compare in *.
  destruct (N.compare_spec (N_of_ascii x) (N_of_ascii y)) as [E1|L1|G1];
    destruct (N.compare_spec (N_of_ascii y) (N_of_ascii z)) as [E2|L2|G2];
    destruct (N.compare_spec (N_of_ascii x) (N_of_ascii z)) as [E3|L3|G3];
    try discriminate; try reflexivity; try lia.
  apply IH with (b := b); assumption.
Qed.

Lemma key_le_trans a b c : key_le a b -> key_le b c -> key_le a c.
Proof.
  unfold key_le, key_leb.
  destruct (is_dir a), (is_dir b), (is_dir c); intros Hab Hbc;
    try reflexivity; try discriminate;
    eapply string_leb_trans; eassumption.
Qed.

Lemma key_le_total a b : key_leb a b = false -> key_le b a.
Proof.
  unfold key_le, key_leb.
  destruct (is_dir a), (is_dir b); intros H;
    try reflexivity; try discriminate;
    destruct (String.leb_total (entry_name a) (entry_name b)); congruence.
Qed.

(** *** Sorting, filtering and cutting keep the order *)

Lemma insert_sorted_In x y l : In y (insert_sorted x l) -> y = x \/ In y l.
Proof.
  induction l as [|z l IH]; simpl.
  - intros [<- | []]. left. reflexivity.
  - destruct (key_leb x z); simpl.
    + intros [<- | H]; [left; reflexivity | right; exact H].
    + intros [<- | H]; [right; left; reflexivity |].
      destruct (IH H) as [-> | Hin]; [left; reflexivity | right; right; exact Hin].
Qed.

Lemma insert_sorted_ordered x l :
  StronglySorted key_le l -> StronglySorted key_le (insert_sorted x l).
Proof.
  induction 1 as [|y l Hsorted IH Hall]; simpl.
  - constructor; constructor.
  - destruct (key_leb x y) eqn:Hxy.
    + constructor.
      * constructor; assumption.
      * constructor; [exact Hxy |].
        eapply Forall_impl; [| exact Hall].
        intros z Hyz. eapply key_le_trans; eassumption.
    + constructor; [exact IH |].
      apply Forall_forall. intros z Hz.
      apply insert_sorted_In in Hz. destruct Hz as [-> | Hz].
      * apply key_le_total. exact Hxy.
      * rewrite Forall_forall in Hall. apply Hall. exact Hz.
Qed.

Lemma sorted_ordered l : StronglySorted key_le (sorted l).
Proof.
  induction l as [|x l IH]; simpl.
  - constructor.
  - apply insert_sorted_ordered. exact IH.
Qed.

Lemma firstn_In_inv {A : Type} (n : nat) : forall (l : list A) x,
  In x (firstn n l) -> In x l.
Proof.
  induction n as [|n IH]; intros [|y l] x; simpl; try contradiction.
  intros [<- | H]; [left; reflexivity | right; apply IH; exact H].
Qed.

Lemma filter_ordered {A : Type} (R : A -> A -> Prop) (keep : A -> bool) l :
  StronglySorted R l -> StronglySorted R (filter keep l).
Proof.
  induction 1 as [|x l Hsorted IH Hall]; simpl.
  - constructor.
  - destruct (keep x); [| exact IH].
    constructor; [exact IH |].
    apply Forall_forall. intros y Hy. apply filter_In in Hy.
    rewrite Forall_forall in Hall. apply Hall. apply Hy.
Qed.

Lemma firstn_ordered {A : Type} (R : A -> A -> Prop) (n : nat) : forall l,
  StronglySorted R l -> StronglySorted R (firstn n l).
Proof.
  induction n as [|n IH]; intros l Hsorted; simpl.
  - constructor.
  - destruct Hsorted as [|x l Hsorted Hall]; constructor.
    + apply IH. exact Hsorted.
    + apply Forall_forall. intros y Hy. apply firstn_In_inv in Hy.
      rewrite Forall_forall in Hall. apply Hall. exact Hy.
Qed.

(** Numbering the items and drawing each keeps the order. *)
Lemma numbered_map_ordered {A B : Type} (R : A -> A -> Prop)
  (R' : B -> B -> Prop) (f : nat * A -> B) :
  (forall i j a b, R a b -> R' (f (i, a)) (f (j, b))) ->
  forall l numbers,
    StronglySorted R l -> StronglySorted R' (map f (combine numbers l)).
Proof.
  intros Hf l numbers Hsorted. revert numbers.
  induction Hsorted as [|x l Hsorted IH Hall]; intros [|i numbers]; simpl;
    try constructor.
  - apply IH.
  - apply Forall_forall. intros y Hy.
    apply in_map_iff in Hy. destruct Hy as ([j b] & <- & Hin).
    apply in_combine_r in Hin.
    rewrite Forall_forall in Hall. apply Hf, Hall. exact Hin.
Qed.

(** *** The forest drawn is bounded and ordered *)

Lemma bounded_forest_nil levels : bounded_forest levels [].
Proof.
  destruct levels; simpl.
  - reflexivity.
  - split; [lia |]. split; constructor.
Qed.

Lemma forest_dir k n l :
  forest (S k) (Dir n true l)
  = map (fun ix =>
           Shown (entry_name (snd ix)) (is_dir (snd ix))
                 (fst ix =? List.length (filter displayed (sorted l)) - 1)%nat
                 (if is_dir (snd ix) then forest k (snd ix) else []))
        (enumerate (firstn 20 (filter displayed (sorted l)))).
Proof. reflexivity. Qed.

Lemma key_le_listed_before a b (la lb : bool) (ua ub : list shown) :
  key_le a b ->
  listed_before (Shown (entry_name a) (is_dir a) la ua)
                (Shown (entry_name b) (is_dir b) lb ub).
Proof.
  unfold key_le, key_leb, listed_before. simpl.
  destruct (is_dir a), (is_dir b); intros H; try discriminate; auto.
Qed.

Lemma forest_bounded levels : forall path, bounded_forest levels (forest levels path).
Proof.
  induction levels as [|k IH]; intros path.
  - reflexivity.
  - destruct path as [f c | n [|] l | n]; try apply bounded_forest_nil.
    rewrite forest_dir.
    set (items := filter displayed (sorted l)).
    cbn [bounded_forest]. split; [| split].
    + unfold enumerate. rewrite length_map, length_combine, length_seq.
      rewrite Nat.min_id. apply firstn_le_length.
    + unfold enumerate.
      apply numbered_map_ordered with (R := key_le).
      * intros i j a b Hab. apply key_le_listed_before. exact Hab.
      * apply firstn_ordered, filter_ordered, sorted_ordered.
    + apply Forall_forall. intros s Hs.
      apply in_map_iff in Hs. destruct Hs as ([i item] & <- & _).
      simpl. destruct (is_dir item); [apply IH | apply bounded_forest_nil].
Qed.

Lemma every_node_nil P levels : every_node P levels [].
Proof. destruct levels; simpl; constructor. Qed.

(** No node drawn has a hidden name or a name of the ignore set. *)
Lemma forest_displayed levels : forall path,
  every_node (fun s => hidden (shown_name s) = false
                       /\ ignored (shown_name s) = false)
             levels (forest levels path).
Proof.
  induction levels as [|k IH]; intros path.
  - exact I.
  - destruct path as [f c | n [|] l | n]; try apply every_node_nil.
    rewrite forest_dir. cbn [every_node].
    apply Forall_forall. intros s Hs.
    apply in_map_iff in Hs. destruct Hs as ([i item] & <- & Hin).
    unfold enumerate in Hin. apply in_combine_r in Hin.
    apply firstn_In_inv in Hin. apply filter_In in Hin.
    destruct Hin as [_ Hshow]. unfold displayed in Hshow.
    apply andb_prop in Hshow. destruct Hshow as [Hh Hi].
    apply negb_true_iff in Hh. apply negb_true_iff in Hi.
    cbn [shown_name shown_under fst snd]. split; [split; assumption |].
    destruct (is_dir item); [apply IH | apply every_node_nil].
Qed.

Lemma flat_map_map {A B C : Type} (f : B -> list C) (g : A -> B) l :
  flat_map f (map g l) = flat_map (fun x => f (g x)) l.
Proof.
  induction l as [|x l IH]; simpl; [reflexivity | rewrite IH; reflexivity].
Qed.

Lemma draw_unfold prefix n dir is_last under :
  draw prefix (Shown n dir is_last under)
  = tree_line prefix is_last n dir
    :: flat_map
         (draw (prefix ++ (if is_last then last_indent else inner_indent))%string)
         under.
Proof. reflexivity. Qed.

(** With fuel for the levels that are left, [add_to_tree] appends the
    lines that draw the forest. *)
Lemma add_to_tree_draws fuel : forall max_depth path prefix depth,
  max_depth - depth <= fuel ->
  add_to_tree fuel max_depth path prefix depth
  = flat_map (draw prefix) (forest (max_depth - depth) path).
Proof.
  induction fuel as [|fuel IH]; intros max_depth path prefix depth Hfuel.
  - replace (max_depth - depth) with 0 by lia. reflexivity.
  - cbn [add_to_tree].
    destruct (Nat.leb_spec max_depth depth) as [Hdeep | Hshallow].
    + replace (max_depth - depth) with 0 by lia. reflexivity.
    + replace (max_depth - depth) with (S (max_depth - S depth)) by lia.
      destruct path as [f c | n [|] l | n]; try reflexivity.
      rewrite forest_dir, flat_map_map.
      apply flat_map_ext. intros [i item].
      rewrite draw_unfold. cbn [fst snd]. f_equal.
      destruct (is_dir item); [| reflexivity].
      apply IH. lia.
Qed.

(** More fuel than the levels that are left changes nothing. *)
Lemma add_to_tree_fuel fuel fuel' max_depth path prefix depth :
  max_depth - depth <= fuel -> max_depth - depth <= fuel' ->
  add_to_tree fuel max_depth path prefix depth
  = add_to_tree fuel' max_depth path prefix depth.
Proof.
  intros H H'. rewrite !add_to_tree_draws by assumption. reflexivity.
Qed.

(** C8: the lines of the tree, after the line of the root, draw a forest
    of at most 3 levels below the root in which every directory lists at
    most 20 entries, directories before files, each group ordered by
    name. *)
Theorem tree_is_bounded_and_ordered
  (n : string) (listable : bool) (items : list entry) :
  let root := Dir n listable items in
  _get_tree_structure (Some root)
  = Ok ((n ++ "/")%string :: flat_map (draw EmptyString) (forest 3 root))
  /\ bounded_forest 3 (forest 3 root).
Proof.
  intros root. split.
  - unfold _get_tree_structure, root.
    rewrite add_to_tree_draws by lia. reflexivity.
  - apply forest_bounded.
Qed.

(* ================================================================== *)
(** * Further properties *)
(* ================================================================== *)

(** ** The histogram, file by file *)

Lemma reached_by_nonempty keep max_depth depth item p :
  In p (reached_by keep max_depth depth item) -> p <> [].
Proof.
  destruct item as [f c | d r sub | d]; simpl.
  - destruct (keep f); [| contradiction].
    intros [<- | []]. discriminate.
  - destruct (keep d && negb (ignored d)); [| contradiction].
    intros Hin. apply in_map_iff in Hin. destruct Hin as (q & <- & _).
    discriminate.
  - contradiction.
Qed.

(** The paths of the files reached are not empty. *)
Lemma files_within_nonempty keep max_depth depth path p :
  In p (files_within keep max_depth depth path) -> p <> [].
Proof.
  destruct path as [f c | n r items | n]; [contradiction | | contradiction].
  rewrite files_within_dir.
  destruct (r && (depth <=? max_depth)%nat); [| contradiction].
  intros Hin. apply in_flat_map in Hin. destruct Hin as (item & _ & Hp).
  eapply reached_by_nonempty. exact Hp.
Qed.

Lemma extension_of_cons d p : p <> [] -> extension_of (d :: p) = extension_of p.
Proof.
  intros Hp. unfold extension_of. destruct p as [|x p]; [contradiction |].
  reflexivity.
Qed.

Lemma extensions_below d paths :
  (forall p, In p paths -> p <> []) ->
  map extension_of (map (cons d) paths) = map extension_of paths.
Proof.
  intros Hne. rewrite map_map. apply map_ext_in.
  intros p Hp. apply extension_of_cons, Hne, Hp.
Qed.

Lemma tally_app a b h : tally (a ++ b) h = tally b (tally a h).
Proof. apply fold_left_app. Qed.

Lemma scan_items_tallies max_depth depth items :
  Forall (fun item => tallies_files max_depth (S depth) item) items ->
  forall file_stats,
    scan_items (fun item st => scan_entry max_depth item (S depth) st)
               items file_stats
    = Ok (tally (map extension_of
                     (flat_map (reached_by considered max_depth depth) items))
                file_stats).
Proof.
  induction 1 as [|item rest Hitem _ IH]; intros file_stats.
  - reflexivity.
  - rewrite scan_items_cons.
    change (flat_map (reached_by considered max_depth depth) (item :: rest))
      with (reached_by considered max_depth depth item
            ++ flat_map (reached_by considered max_depth depth) rest).
    rewrite map_app, tally_app.
    set (more := flat_map (reached_by considered max_depth depth) rest) in *.
    destruct item as [f c | d r sub | d];
      unfold reached_by; try rewrite considered_spec;
      cbn [entry_name is_dir is_file].
    + destruct (passed_over f); cbn [negb andb]; apply IH.
    + destruct (passed_over d); cbn [negb andb]; [apply IH |].
      destruct (ignored d); cbn [negb andb]; [apply IH |].
      rewrite (Hitem file_stats eq_refl).
      rewrite extensions_below by (intros p; apply files_within_nonempty).
      apply IH.
    + destruct (passed_over d); cbn [negb andb]; [apply IH |].
      destruct (ignored d); cbn [negb andb]; [apply IH |].
      rewrite (Hitem file_stats eq_refl). apply IH.
Qed.

Lemma scan_entry_tallies max_depth path :
  forall depth, tallies_files max_depth depth path.
Proof.
  induction path as [f c | n r items IH | n] using entry_forall_ind;
    intros depth file_stats Hdir.
  - discriminate Hdir.
  - rewrite files_within_dir. simpl scan_entry.
    destruct (Nat.ltb_spec max_depth depth) as [Hdeep | Hshallow].
    + replace (depth <=? max_depth)%nat with false
        by (symmetry; apply Nat.leb_gt; exact Hdeep).
      rewrite andb_false_r. reflexivity.
    + destruct r; [| reflexivity].
      replace (depth <=? max_depth)%nat with true
        by (symmetry; apply Nat.leb_le; exact Hshallow).
      apply scan_items_tallies.
      apply Forall_forall. intros item Hin.
      rewrite Forall_forall in IH. apply IH. exact Hin.
  - simpl. destruct (max_depth <? depth)%nat; reflexivity.
Qed.

(** The histogram of a run, from the files reached. *)
Lemma scan_directory_tally n listable items :
  _scan_directory (Some (Dir n listable items))
  = Ok (tally (map extension_of
                   (files_within considered 5 0 (Dir n listable items))) []).
Proof. apply (@scan_entry_tallies 5 (Dir n listable items) 0 [] eq_refl). Qed.

Lemma count_of_bump ext e h :
  count_of ext (bump e h)
  = count_of ext h + (if String.eqb ext e then 1 else 0).
Proof.
  unfold count_of, dict_get.
  induction h as [|[k n] h IH]; simpl.
  - destruct (String.eqb ext e); reflexivity.
  - destruct (String.eqb_spec e k) as [-> | Hek]; simpl.
    + destruct (String.eqb ext k); simpl; lia.
    + destruct (String.eqb_spec ext k) as [-> | Hxk]; simpl.
      * destruct (String.eqb_spec k e) as [-> | _]; [contradiction | lia].
      * exact IH.
Qed.

Lemma count_of_tally ext exts : forall h,
  count_of ext (tally exts h)
  = count_of ext h + List.length (filter (String.eqb ext) exts).
Proof.
  induction exts as [|e exts IH]; intros h; simpl.
  - lia.
  - unfold tally in *. simpl. rewrite IH, count_of_bump.
    destruct (String.eqb ext e); simpl; lia.
Qed.

(** X1: for every extension, the histogram's count is the number of files
    reached by the statistics walk whose lower-cased suffix is that
    extension; an extension that is no key has no such file. *)
Theorem histogram_counts_each_extension
  (n : string) (listable : bool) (items : list entry) (ext : string) :
  exists file_stats,
    _scan_directory (Some (Dir n listable items)) = Ok file_stats
    /\ count_of ext file_stats
       = List.length
           (filter (fun p => String.eqb ext (extension_of p))
                   (files_within considered 5 0 (Dir n listable items))).
Proof.
  eexists. split; [apply scan_directory_tally |].
  rewrite count_of_tally.
  set (files := files_within considered 5 0 (Dir n listable items)).
  induction files as [|p files IH]; simpl; [reflexivity |].
  simpl in IH. destruct (String.eqb ext (extension_of p)); simpl; lia.
Qed.

Lemma bump_keys e h :
  dict_keys (bump e h)
  = if PyStr.mem e (dict_keys h) then dict_keys h else dict_keys h ++ [e].
Proof.
  unfold dict_keys, PyStr.mem.
  induction h as [|[k n] h IH]; simpl.
  - reflexivity.
  - destruct (String.eqb e k); simpl.
    + reflexivity.
    + rewrite IH. destruct (existsb (String.eqb e) (map fst h)); reflexivity.
Qed.

Lemma tally_keys exts : forall h,
  dict_keys (tally exts h) = first_seen exts (dict_keys h).
Proof.
  induction exts as [|e exts IH]; intros h.
  - reflexivity.
  - unfold tally, first_seen in *. simpl. rewrite IH, bump_keys. reflexivity.
Qed.

Lemma bump_positive e h :
  Forall (fun kv => 1 <= snd kv) h -> Forall (fun kv => 1 <= snd kv) (bump e h).
Proof.
  induction 1 as [|[k n] h Hn Hh IH]; simpl.
  - constructor; [simpl; lia | constructor].
  - destruct (String.eqb e k); constructor; simpl in *; try lia; assumption.
Qed.

Lemma bump_distinct e h : NoDup (dict_keys h) -> NoDup (dict_keys (bump e h)).
Proof.
  intros Hh. rewrite bump_keys.
  destruct (PyStr.mem e (dict_keys h)) eqn:Hmem; [exact Hh |].
  apply NoDup_app; [exact Hh | repeat constructor; intros [] | ].
  intros x Hx [<- | []].
  apply mem_In in Hx. congruence.
Qed.

Lemma tally_invariant exts : forall h,
  NoDup (dict_keys h) -> Forall (fun kv => 1 <= snd kv) h ->
  NoDup (dict_keys (tally exts h))
  /\ Forall (fun kv => 1 <= snd kv) (tally exts h).
Proof.
  induction exts as [|e exts IH]; intros h Hd Hp.
  - split; assumption.
  - unfold tally in *. simpl. apply IH.
    + apply bump_distinct. exact Hd.
    + apply bump_positive. exact Hp.
Qed.

(** X2: the histogram of a run has no extension twice and no count of
    zero. *)
Theorem histogram_keys_distinct_counts_positive
  (n : string) (listable : bool) (items : list entry) :
  exists file_stats,
    _scan_directory (Some (Dir n listable items)) = Ok file_stats
    /\ NoDup (dict_keys file_stats)
    /\ Forall (fun kv => 1 <= snd kv) file_stats.
Proof.
  eexists. split; [apply scan_directory_tally |].
  apply tally_invariant; constructor.
Qed.

(** X3: the extensions of the histogram are in the order in which the walk
    first meets a file of each. *)
Theorem histogram_keys_in_order_of_first_file
  (n : string) (listable : bool) (items : list entry) :
  exists file_stats,
    _scan_directory (Some (Dir n listable items)) = Ok file_stats
    /\ dict_keys file_stats
       = first_seen
           (map extension_of
                (files_within considered 5 0 (Dir n listable items))) [].
Proof.
  eexists. split; [apply scan_directory_tally |].
  apply tally_keys.
Qed.

(** ** Which files the statistics walk reaches *)

Lemma files_within_sound keep max_depth path : forall depth dirs f,
  In (dirs ++ [f]) (files_within keep max_depth depth path) ->
  exists n items,
    path = Dir n true items
    /\ file_at items dirs f
    /\ Forall (fun d => keep d = true /\ ignored d = false) dirs
    /\ keep f = true
    /\ depth + List.length dirs <= max_depth.
Proof.
  induction path as [g c | n r items IH | n] using entry_forall_ind;
    intros depth dirs f Hin; [contradiction | | contradiction].
  - rewrite files_within_dir in Hin.
    destruct r; [| contradiction].
    destruct (Nat.leb_spec depth max_depth) as [Hdepth | _]; [| contradiction].
    simpl andb in Hin. cbv iota in Hin.
    apply in_flat_map in Hin. destruct Hin as (item & Hitem & Hp).
    exists n, items. split; [reflexivity |].
    destruct item as [f0 c0 | d r sub | d]; unfold reached_by in Hp;
      [| | contradiction].
    + destruct (keep f0) eqn:Hkeep; [| contradiction].
      destruct Hp as [Hp | []].
      destruct dirs as [|d dirs]; simpl in Hp.
      * injection Hp as <-. repeat split.
        -- eapply file_here. exact Hitem.
        -- constructor.
        -- exact Hkeep.
        -- simpl. lia.
      * destruct dirs; discriminate Hp.
    + destruct (keep d) eqn:Hkeep; [| contradiction].
      destruct (ignored d) eqn:Hign; [contradiction |].
      cbn [andb negb] in Hp.
      apply in_map_iff in Hp. destruct Hp as (q & Hq & Hin).
      destruct dirs as [|d' dirs]; simpl in Hq.
      * injection Hq as _ ->.
        apply files_within_nonempty in Hin. contradiction.
      * injection Hq as -> ->.
        rewrite Forall_forall in IH.
        destruct (IH _ Hitem _ _ _ Hin)
          as (n' & sub' & Hsub & Hat & Hdirs & Hf & Hlen).
        injection Hsub as -> -> ->.
        repeat split.
        -- eapply file_below; eassumption.
        -- constructor; [split; assumption | exact Hdirs].
        -- exact Hf.
        -- simpl. lia.
Qed.

Lemma files_within_complete keep max_depth items dirs f :
  file_at items dirs f ->
  Forall (fun d => keep d = true /\ ignored d = false) dirs ->
  keep f = true ->
  forall n depth,
    depth + List.length dirs <= max_depth ->
    In (dirs ++ [f]) (files_within keep max_depth depth (Dir n true items)).
Proof.
  induction 1 as [items f c Hin | items d sub dirs f Hin Hsub IH];
    intros Hdirs Hf n depth Hlen; rewrite files_within_dir.
  - replace (depth <=? max_depth)%nat with true
      by (symmetry; apply Nat.leb_le; simpl in Hlen; lia).
    apply in_flat_map. exists (File f c). split; [exact Hin |].
    unfold reached_by. rewrite Hf. left. reflexivity.
  - simpl in Hlen.
    replace (depth <=? max_depth)%nat with true
      by (symmetry; apply Nat.leb_le; lia).
    inversion Hdirs as [|d' dirs' [Hkeep Hign] Hrest]; subst.
    apply in_flat_map. exists (Dir d true sub). split; [exact Hin |].
    unfold reached_by. rewrite Hkeep, Hign. cbn [andb negb].
    change ((d :: dirs) ++ [f]) with (d :: (dirs ++ [f])).
    apply in_map. apply IH; try assumption. lia.
Qed.

(** X4: the statistics walk reaches the file [f] under the directories
    [dirs] exactly when the file is there, every directory on the way can
    be enumerated, is not passed over as hidden and is not in the ignore
    set, the file is not passed over as hidden, and at most 5 directories
    lie between the root and the file. *)
Theorem walk_reaches_exactly
  (n : string) (items : list entry) (dirs : list string) (f : string) :
  In (dirs ++ [f]) (files_within considered 5 0 (Dir n true items))
  <-> (file_at items dirs f
       /\ Forall (fun d => passed_over d = false /\ ignored d = false) dirs
       /\ passed_over f = false
       /\ List.length dirs <= 5).
Proof.
  assert (Hcons : forall d, considered d = true <-> passed_over d = false).
  { intros d. unfold considered. apply negb_true_iff. }
  split.
  - intros Hin. apply files_within_sound in Hin.
    destruct Hin as (n' & items' & Hroot & Hat & Hdirs & Hf & Hlen).
    injection Hroot as <- <-. repeat split.
    + exact Hat.
    + eapply Forall_impl; [| exact Hdirs].
      intros d [Hd Hi]. split; [apply Hcons; exact Hd | exact Hi].
    + apply Hcons. exact Hf.
    + simpl in Hlen. exact Hlen.
  - intros (Hat & Hdirs & Hf & Hlen).
    apply files_within_complete; try assumption.
    + eapply Forall_impl; [| exact Hdirs].
      intros d [Hd Hi]. split; [apply Hcons; exact Hd | exact Hi].
    + apply Hcons. exact Hf.
Qed.

(** ** The classifier beyond the manifest rule *)

Lemma dict_get_mem {V : Type} k (d : dict V) v :
  dict_get k d = Some v -> dict_mem k d = true.
Proof.
  unfold dict_get, dict_mem.
  induction d as [|[k0 v0] d IH]; simpl; [discriminate |].
  destruct (String.eqb k k0); [reflexivity | exact IH].
Qed.

Lemma identify_with_manifest n items file_stats :
  In "package.json" (root_file_names (Some (Dir n true items))) ->
  _identify_project_type (Some (Dir n true items)) file_stats
  = Ok (node_rule (Some (Dir n true items))).
Proof.
  intros Hnode.
  unfold _identify_project_type. simpl iterdir. unfold bind.
  apply mem_In in Hnode. simpl root_file_names in Hnode.
  rewrite Hnode. reflexivity.
Qed.

(** X5: when the root has a [package.json] that loads as an object with a
    dependency section, its sections being objects, the project type is
    read off the names of the two sections together: React/Next.js when
    react or next is among them, else Vue.js for vue, else Node.js/Express
    for express, else Node.js. *)
Theorem manifest_sections_decide_label
  (n : string) (items : list entry) (file_stats : histogram)
  (kv d dd : dict json) :
  let root := Some (Dir n true items) in
  In "package.json" (root_file_names root) ->
  json_load (child root "package.json") = Ok (JObj kv) ->
  dict_mem "dependencies" kv || dict_mem "devDependencies" kv = true ->
  py_get (JObj kv) "dependencies" = Ok (JObj d) ->
  py_get (JObj kv) "devDependencies" = Ok (JObj dd) ->
  _identify_project_type root file_stats
  = Ok (Some (label_of_names (dict_keys d ++ dict_keys dd))).
Proof.
  intros root Hnode Hload Hsection Hd Hdd. subst root.
  rewrite (identify_with_manifest n items file_stats Hnode).
  unfold node_rule. rewrite Hload. cbn [bind].
  rewrite (classify_manifest_sections Hsection Hd Hdd). reflexivity.
Qed.

(** X5 at a manifest with only development dependencies, vue and next. *)
Lemma manifest_sections_decide_label_witness :
  _identify_project_type (Some (Dir "proj" true [react_manifest])) []
  = Ok (Some ReactNext).
Proof.
  apply (@manifest_sections_decide_label "proj" [react_manifest] []
           [("devDependencies", JObj [("vue", JStr "3"); ("next", JStr "14")])]
           [] [("vue", JStr "3"); ("next", JStr "14")]).
  - left. reflexivity.
  - reflexivity.
  - reflexivity.
  - reflexivity.
  - reflexivity.
Defined.

Lemma broken_manifest_raises_or_fails loaded :
  broken_manifest loaded ->
  exists e, (pkg <- loaded ;; classify_manifest pkg) = Raise e.
Proof.
  intros Hbroken.
  destruct Hbroken as [e | | b | z | kv section v Hsection Hget Hbad].
  - exists e. reflexivity.
  - exists TypeError. reflexivity.
  - exists TypeError. reflexivity.
  - exists TypeError. reflexivity.
  - exists TypeError. cbn [bind]. unfold classify_manifest. cbn [py_in bind].
    assert (Hmem := dict_get_mem _ _ Hget).
    destruct Hsection as [-> | ->].
    + rewrite Hmem. cbn [bind py_get]. rewrite Hget.
      destruct (dict_get "devDependencies" kv) as [w|];
        destruct v; try contradiction; reflexivity.
    + rewrite Hmem.
      replace (if dict_mem "dependencies" kv then Ok true else Ok true)
        with (@Ok bool true) by (destruct (dict_mem "dependencies" kv); reflexivity).
      cbn [bind py_get]. rewrite Hget.
      destruct (dict_get "dependencies" kv) as [w|];
        [destruct w |]; destruct v; try contradiction; reflexivity.
Qed.

(** X6: when the root has a [package.json] that cannot be loaded, or that
    holds null, a boolean or a number, or an object with a section that
    is not an object, the project type is JavaScript Project: the failure
    is caught. *)
Theorem broken_manifest_is_javascript
  (n : string) (items : list entry) (file_stats : histogram) :
  let root := Some (Dir n true items) in
  In "package.json" (root_file_names root) ->
  broken_manifest (json_load (child root "package.json")) ->
  _identify_project_type root file_stats = Ok (Some JavaScript).
Proof.
  intros root Hnode Hbroken. subst root.
  rewrite (identify_with_manifest n items file_stats Hnode).
  apply broken_manifest_raises_or_fails in Hbroken.
  destruct Hbroken as (e & He).
  unfold node_rule. rewrite He. reflexivity.
Qed.

(** X6 at a manifest whose [dependencies] is a list. *)
Lemma broken_manifest_is_javascript_witness :
  _identify_project_type
    (Some (Dir "proj" true
       [File "package.json"
          {| text := "";
             parsed := Some (JObj [("dependencies", JArr [JStr "react"])]);
             unreadable := None |}]))
    []
  = Ok (Some JavaScript).
Proof.
  apply broken_manifest_is_javascript.
  - left. reflexivity.
  - apply (@bad_section [("dependencies", JArr [JStr "react"])]
             "dependencies" (JArr [JStr "react"])).
    + left. reflexivity.
    + reflexivity.
    + exact I.
Defined.

Lemma identify_without_manifest n items file_stats :
  PyStr.mem "package.json" (root_file_names (Some (Dir n true items))) = false ->
  _identify_project_type (Some (Dir n true items)) file_stats
  = Ok (Some (match first_marker
                      (root_file_names (Some (Dir n true items))) with
              | Some t => t
              | None =>
                  if existsb (PyStr.contains ".csproj")
                       (root_file_names (Some (Dir n true items)))
                  then CSharp
                  else fallback_rule file_stats
              end)).
Proof.
  intros Hnode.
  unfold _identify_project_type. simpl iterdir. cbn [bind].
  simpl root_file_names in *.
  set (names := map entry_name (filter is_file items)) in *.
  rewrite Hnode. unfold first_marker, marker_rules.
  cbn [find fst snd existsb option_map].
  destruct (PyStr.mem "Cargo.toml" names); [reflexivity |].
  destruct (PyStr.mem "go.mod" names); [reflexivity |].
  destruct (PyStr.mem "pom.xml" names); [reflexivity |].
  destruct (PyStr.mem "build.gradle" names); [reflexivity |].
  destruct (PyStr.mem "requirements.txt" names); [reflexivity |].
  destruct (PyStr.mem "pyproject.toml" names); [reflexivity |].
  destruct (PyStr.mem "setup.py" names); [reflexivity |].
  destruct (PyStr.mem "Gemfile" names); [reflexivity |].
  cbn [orb].
  destruct (existsb (PyStr.contains ".csproj") names); reflexivity.
Qed.

(** X7: without a [package.json] among the root files, the project type
    is the label of the first marker rule that has one of its files at
    the root (Rust, Go, Java, Python, Ruby, in this order); with no such
    rule it is C# when some root file name contains [.csproj], and else
    what the most common extension gives. *)
Theorem markers_decide_in_order
  (n : string) (items : list entry) (file_stats : histogram) :
  let root := Some (Dir n true items) in
  let names := root_file_names root in
  PyStr.mem "package.json" names = false ->
  _identify_project_type root file_stats
  = Ok (Some (match first_marker names with
              | Some t => t
              | None =>
                  if existsb (PyStr.contains ".csproj") names then CSharp
                  else fallback_rule file_stats
              end)).
Proof.
  intros root names Hnode. subst root names.
  apply identify_without_manifest. exact Hnode.
Qed.

(** X7 at a project with a requirements file and Python sources. *)
Lemma markers_decide_in_order_witness :
  _identify_project_type (Some (Dir "svc" true python_service)) []
  = Ok (Some Python).
Proof.
  apply (@markers_decide_in_order "svc" python_service []).
  reflexivity.
Defined.

Lemma max_by_count_split l : forall best pre mid,
  Forall (fun e => snd e < snd best) pre ->
  Forall (fun e => snd e <= snd best) mid ->
  exists before after,
    pre ++ best :: mid ++ l = before ++ max_by_count best l :: after
    /\ Forall (fun e => snd e < snd (max_by_count best l)) before
    /\ Forall (fun e => snd e <= snd (max_by_count best l)) after.
Proof.
  induction l as [|y l IH]; intros best pre mid Hpre Hmid; simpl.
  - exists pre, mid. rewrite app_nil_r. repeat split; assumption.
  - destruct (Nat.ltb_spec (snd best) (snd y)) as [Hlt | Hge].
    + destruct (IH y (pre ++ best :: mid) []) as (before & after & Heq & H).
      * apply Forall_app. split.
        -- eapply Forall_impl; [| exact Hpre]. simpl. intros e He. lia.
        -- constructor; [exact Hlt |].
           eapply Forall_impl; [| exact Hmid]. simpl. intros e He. lia.
      * constructor.
      * exists before, after. split; [| exact H].
        rewrite <- Heq. rewrite <- app_assoc. reflexivity.
    + destruct (IH best pre (mid ++ [y])) as (before & after & Heq & H).
      * exact Hpre.
      * apply Forall_app. split; [exact Hmid |].
        constructor; [exact Hge | constructor].
      * exists before, after. split; [| exact H].
        rewrite <- Heq. rewrite <- app_assoc. reflexivity.
Qed.

(** X8: the most common extension the fallback uses is an item of the
    histogram with the greatest count, and the first such item: every
    item before it has a smaller count. *)
Theorem most_common_is_first_maximum (x : string * nat) (l : histogram) :
  exists before after,
    x :: l = before ++ max_by_count x l :: after
    /\ Forall (fun e => snd e < snd (max_by_count x l)) before
    /\ Forall (fun e => snd e <= snd (max_by_count x l)) after.
Proof.
  destruct (@max_by_count_split l x [] []) as (before & after & Heq & H);
    try constructor.
  exists before, after. split; [exact Heq | exact H].
Qed.

Lemma classify_manifest_unset pkg :
  classify_manifest pkg = Ok None
  <-> (py_in "dependencies" pkg = Ok false
       /\ py_in "devDependencies" pkg = Ok false).
Proof.
  unfold classify_manifest, bind. split.
  - destruct (py_in "dependencies" pkg) as [[|]|e]; try discriminate.
    + destruct (py_get pkg "dependencies") as [d|e]; [| discriminate].
      destruct (py_get pkg "devDependencies") as [dd|e]; [| discriminate].
      destruct (py_merge d dd); discriminate.
    + destruct (py_in "devDependencies" pkg) as [[|]|e]; try discriminate.
      * destruct (py_get pkg "dependencies") as [d|e]; [| discriminate].
        destruct (py_get pkg "devDependencies") as [dd|e]; [| discriminate].
        destruct (py_merge d dd); discriminate.
      * intros _. split; reflexivity.
  - intros [-> ->]. reflexivity.
Qed.

(** X9: on a root that can be enumerated the classifier raises nothing,
    and it leaves the project type unset exactly when [package.json] is a
    root file that loads to a value in which neither [dependencies] nor
    [devDependencies] is found; in every other case it assigns a project
    type. *)
Theorem project_type_unset_exactly
  (n : string) (items : list entry) (file_stats : histogram) :
  let root := Some (Dir n true items) in
  (exists assigned, _identify_project_type root file_stats = Ok assigned)
  /\ (_identify_project_type root file_stats = Ok None
      <-> (PyStr.mem "package.json" (root_file_names root) = true
           /\ exists pkg,
                json_load (child root "package.json") = Ok pkg
                /\ py_in "dependencies" pkg = Ok false
                /\ py_in "devDependencies" pkg = Ok false)).
Proof.
  intros root. subst root.
  destruct (PyStr.mem "package.json"
              (root_file_names (Some (Dir n true items)))) eqn:Hnode.
  - rewrite (identify_with_manifest n items file_stats)
      by (apply mem_In; exact Hnode).
    split; [eexists; reflexivity |].
    unfold node_rule, bind.
    destruct (json_load (child (Some (Dir n true items)) "package.json"))
      as [pkg|e].
    + split.
      * intros H. split; [reflexivity |]. exists pkg. split; [reflexivity |].
        apply classify_manifest_unset.
        destruct (classify_manifest pkg) as [[t|]|e'];
          [discriminate | reflexivity | discriminate].
      * intros (_ & pkg' & Hpkg & Hunset). injection Hpkg as <-.
        apply classify_manifest_unset in Hunset. rewrite Hunset. reflexivity.
    + split; [discriminate |].
      intros (_ & pkg & Hpkg & _). discriminate Hpkg.
  - rewrite (identify_without_manifest n items file_stats Hnode).
    split; [eexists; reflexivity |].
    split; [discriminate | intros [H _]; discriminate H].
Qed.

(** ** The entry-point list and the config catalog, entry by entry *)

(** X12: every path of the entry-point list is that of a file with a
    candidate name, reached from the root through directories that can be
    enumerated and of which none is in the ignore set. *)
Theorem entry_points_only_outside_ignored
  (n : string) (items : list entry) (p : string) :
  In p (_find_entry_points (Some (Dir n true items))) ->
  exists dirs f,
    p = relpath dirs f
    /\ file_at items dirs f
    /\ Forall (fun d => ignored d = false) dirs
    /\ In f entry_candidates.
Proof.
  intros Hin. apply entry_points_sound in Hin.
  destruct Hin as (dirs & f & Hp & Hat & Hdirs & Hcand).
  exists dirs, f. repeat split; try assumption.
  apply mem_In. exact Hcand.
Qed.

(** X12 at a project with an entry point in [src]. *)
Lemma entry_points_only_outside_ignored_witness :
  exists dirs f,
    "src/main.py" = relpath dirs f
    /\ file_at python_service dirs f
    /\ Forall (fun d => ignored d = false) dirs
    /\ In f entry_candidates.
Proof.
  apply (@entry_points_only_outside_ignored "svc" python_service "src/main.py").
  vm_compute. right. left. reflexivity.
Defined.

Lemma dict_set_In {V : Type} k (v : V) d p w :
  In (p, w) (dict_set k v d) -> (p = k /\ w = v) \/ In (p, w) d.
Proof.
  induction d as [|[k0 v0] d IH]; simpl.
  - intros [H | []]. injection H as <- <-. left. split; reflexivity.
  - destruct (String.eqb_spec k k0) as [-> | Hne]; simpl.
    + intros [H | H].
      * injection H as <- <-. left. split; reflexivity.
      * right. right. exact H.
    + intros [H | H].
      * right. left. exact H.
      * destruct (IH H) as [Hnew | Hold]; [left; exact Hnew | right; right; exact Hold].
Qed.

Lemma catalog_files_sound items dirs files :
  List.length dirs <= 1 ->
  (forall f, In f files -> file_at items dirs f) ->
  forall acc,
    Forall (catalogued_from items) acc ->
    Forall (catalogued_from items) (catalog_files dirs files acc).
Proof.
  intros Hlen. unfold catalog_files.
  induction files as [|f files IH]; intros Hfiles acc Hacc; simpl.
  - exact Hacc.
  - apply IH; [intros g Hg; apply Hfiles; right; exact Hg |].
    destruct (dict_get f config_patterns) as [description|] eqn:Hget;
      [| exact Hacc].
    apply Forall_forall. intros [p w] Hin.
    apply dict_set_In in Hin. destruct Hin as [[-> ->] | Hold].
    + exists dirs, f. repeat split; try assumption.
      apply Hfiles. left. reflexivity.
    + rewrite Forall_forall in Hacc. apply Hacc. exact Hold.
Qed.

Lemma catalog_walk_sound items steps :
  (forall visited files,
     In (visited, files) steps ->
     forall f, In f files -> file_at items visited f) ->
  forall acc,
    Forall (catalogued_from items) acc ->
    Forall (catalogued_from items)
      (fold_left
         (fun acc step =>
            if (1 <? List.length (fst step))%nat then acc
            else catalog_files (fst step) (snd step) acc)
         steps acc).
Proof.
  induction steps as [|[visited files] steps IH]; intros Hsteps acc Hacc;
    simpl.
  - exact Hacc.
  - apply IH.
    + intros v fs Hin. apply Hsteps. right. exact Hin.
    + destruct (Nat.ltb_spec 1 (List.length visited)) as [_ | Hlen];
        [exact Hacc |].
      apply catalog_files_sound; try assumption.
      apply Hsteps. left. reflexivity.
Qed.

(** X13: every entry of the config catalog is the path of a file at the
    root or directly in a directory of the root, whose name is a key of
    the table of configuration files, with the description the table gives
    for that name. *)
Theorem config_catalog_entries_are_shallow_config_files
  (n : string) (items : list entry) (path description : string) :
  In (path, description) (_analyze_config_files (Some (Dir n true items))) ->
  exists dirs f,
    path = relpath dirs f
    /\ file_at items dirs f
    /\ List.length dirs <= 1
    /\ dict_get f config_patterns = Some description.
Proof.
  intros Hin.
  assert (Hall : Forall (catalogued_from items)
                   (_analyze_config_files (Some (Dir n true items)))).
  { unfold _analyze_config_files, walk.
    apply catalog_walk_sound; [| constructor].
    intros visited files Hstep f Hf.
    apply os_walk_sound in Hstep.
    destruct Hstep as (n' & items' & dirs & Htop & -> & _ & Hfiles).
    injection Htop as <- <-. apply Hfiles. exact Hf. }
  rewrite Forall_forall in Hall. exact (Hall _ Hin).
Qed.

(** X13 at the documentation of a first-level directory. *)
Lemma config_catalog_entries_are_shallow_config_files_witness :
  exists dirs f,
    "tests/README.md" = relpath dirs f
    /\ file_at python_service dirs f
    /\ List.length dirs <= 1
    /\ dict_get f config_patterns = Some "Project documentation".
Proof.
  apply (@config_catalog_entries_are_shallow_config_files
           "svc" python_service "tests/README.md" "Project documentation").
  vm_compute. right. right. left. reflexivity.
Defined.

Lemma catalog_files_keeps_keys dirs files k : forall acc,
  dict_mem k acc = true -> dict_mem k (catalog_files dirs files acc) = true.
Proof.
  unfold catalog_files.
  induction files as [|f files IH]; intros acc Hacc; simpl; [exact Hacc |].
  apply IH. destruct (dict_get f config_patterns); [| exact Hacc].
  rewrite dict_mem_set, Hacc. reflexivity.
Qed.

Lemma catalog_files_adds dirs files f description :
  In f files -> dict_get f config_patterns = Some description ->
  forall acc,
    dict_mem (relpath dirs f) (catalog_files dirs files acc) = true.
Proof.
  unfold catalog_files.
  induction files as [|g files IH]; intros Hin Hget acc; simpl;
    [contradiction |].
  destruct Hin as [-> | Hin].
  - rewrite Hget.
    apply (@catalog_files_keeps_keys dirs files).
    rewrite dict_mem_set, String.eqb_refl. apply orb_true_r.
  - apply IH; assumption.
Qed.

Lemma catalog_walk_adds steps dirs files f description :
  In (dirs, files) steps -> List.length dirs <= 1 ->
  In f files -> dict_get f config_patterns = Some description ->
  forall acc,
    dict_mem (relpath dirs f)
      (fold_left
         (fun acc step =>
            if (1 <? List.length (fst step))%nat then acc
            else catalog_files (fst step) (snd step) acc)
         steps acc) = true.
Proof.
  intros Hstep Hlen Hf Hget.
  assert (Hkeep : forall steps' acc,
            dict_mem (relpath dirs f) acc = true ->
            dict_mem (relpath dirs f)
              (fold_left
                 (fun acc step =>
                    if (1 <? List.length (fst step))%nat then acc
                    else catalog_files (fst step) (snd step) acc)
                 steps' acc) = true).
  { induction steps' as [|[v fs] steps' IH']; intros acc Hacc; simpl;
      [exact Hacc |].
    apply IH'. destruct (1 <? List.length v)%nat; [exact Hacc |].
    apply catalog_files_keeps_keys. exact Hacc. }
  induction steps as [|[v fs] steps IH]; intros acc; simpl;
    [contradiction |].
  destruct Hstep as [Heq | Hstep].
  - injection Heq as -> ->. apply Hkeep.
    replace (1 <? List.length dirs)%nat with false
      by (symmetry; apply Nat.ltb_ge; exact Hlen).
    eapply catalog_files_adds; eassumption.
  - apply IH. exact Hstep.
Qed.

(** X14: a file at the root or directly in a directory of the root that
    can be enumerated, whose name is a key of the table of configuration
    files, has its path among the keys of the config catalog, whatever
    the name of that directory (hidden or of the ignore set included). *)
Theorem shallow_config_files_are_catalogued
  (n : string) (items : list entry) (dirs : list string)
  (f description : string) :
  file_at items dirs f ->
  List.length dirs <= 1 ->
  dict_get f config_patterns = Some description ->
  dict_mem (relpath dirs f) (_analyze_config_files (Some (Dir n true items)))
  = true.
Proof.
  intros Hat Hlen Hget.
  assert (Hkeep : Forall (fun d : string => (fun _ => true) d = true) dirs)
    by (apply Forall_forall; reflexivity).
  destruct (os_walk_reaches (fun _ => true) Hat Hkeep n [])
    as (files & Hwalk & Hf).
  unfold _analyze_config_files, walk.
  eapply catalog_walk_adds; eassumption.
Qed.

(** X14 at the environment file of the root. *)
Lemma shallow_config_files_are_catalogued_witness :
  dict_mem ".env" (_analyze_config_files (Some (Dir "svc" true python_service)))
  = true.
Proof.
  apply (@shallow_config_files_are_catalogued
           "svc" python_service [] ".env" "Environment variables").
  - eapply file_here. do 5 right. left. reflexivity.
  - simpl. lia.
  - reflexivity.
Defined.

(** ** The names of the requirements file *)

Lemma split_head_is_prefix sep s :
  exists rest, s = (PyStr.split_head sep s ++ rest)%string.
Proof.
  induction s as [|c s [rest IH]].
  - exists EmptyString. reflexivity.
  - rewrite split_head_unfold.
    destruct (String.prefix sep (String c s)).
    + exists (String c s). reflexivity.
    + exists rest. simpl. rewrite <- IH. reflexivity.
Qed.

Lemma contains_unfold sub s :
  PyStr.contains sub s
  = String.prefix sub s
    || match s with
       | EmptyString => false
       | String _ s' => PyStr.contains sub s'
       end.
Proof. destruct s; reflexivity. Qed.

(** The part before the first separator does not contain it. *)
Lemma contains_split_head a sep s :
  PyStr.contains (String a sep) (PyStr.split_head (String a sep) s) = false.
Proof.
  induction s as [|c s IH].
  - reflexivity.
  - rewrite split_head_unfold.
    destruct (String.prefix (String a sep) (String c s)) eqn:Hp;
      [reflexivity |].
    rewrite contains_unfold, IH, orb_false_r.
    destruct (split_head_is_prefix (String a sep) s) as [rest Hrest].
    destruct (String.prefix (String a sep)
                (String c (PyStr.split_head (String a sep) s))) eqn:Hq;
      [| reflexivity].
    apply prefix_app with (t := rest) in Hq.
    simpl String.append in Hq. rewrite <- Hrest in Hq. congruence.
Qed.

Lemma contains_app_l p x r :
  PyStr.contains p x = true -> PyStr.contains p (x ++ r)%string = true.
Proof.
  induction x as [|c x IH]; rewrite contains_unfold; intros H.
  - rewrite orb_false_r in H.
    rewrite contains_unfold. rewrite (prefix_app _ _ r H). reflexivity.
  - apply orb_prop in H. destruct H as [H | H].
    + rewrite contains_unfold. rewrite (prefix_app _ _ r H). reflexivity.
    + simpl String.append. rewrite contains_unfold.
      rewrite (IH H). apply orb_true_r.
Qed.

Lemma contains_app_r p l x :
  PyStr.contains p x = true -> PyStr.contains p (l ++ x)%string = true.
Proof.
  intros H. induction l as [|c l IH]; simpl String.append.
  - exact H.
  - rewrite contains_unfold, IH. apply orb_true_r.
Qed.

Lemma lstrip_is_suffix s : exists l, s = (l ++ PyStr.lstrip s)%string.
Proof.
  induction s as [|c s [l IH]].
  - exists EmptyString. reflexivity.
  - simpl. destruct (PyStr.isspace c).
    + exists (String c l). simpl. rewrite <- IH. reflexivity.
    + exists EmptyString. reflexivity.
Qed.

Lemma rstrip_is_prefix s : exists r, s = (PyStr.rstrip s ++ r)%string.
Proof.
  induction s as [|c s [r IH]].
  - exists EmptyString. reflexivity.
  - simpl. destruct (PyStr.rstrip s) as [|d t].
    + destruct (PyStr.isspace c).
      * exists (String c s). reflexivity.
      * exists s. reflexivity.
    + exists r. simpl. simpl in IH. rewrite <- IH. reflexivity.
Qed.

(** What is in the stripped string is in the string. *)
Lemma contains_strip p s :
  PyStr.contains p (PyStr.strip s) = true -> PyStr.contains p s = true.
Proof.
  intros H. unfold PyStr.strip in H.
  destruct (rstrip_is_prefix (PyStr.lstrip s)) as [r Hr].
  destruct (lstrip_is_suffix s) as [l Hl].
  rewrite Hl. apply contains_app_r. rewrite Hr. apply contains_app_l. exact H.
Qed.

Lemma rstrip_idempotent s : PyStr.rstrip (PyStr.rstrip s) = PyStr.rstrip s.
Proof.
  induction s as [|c s IH]; simpl; [reflexivity |].
  destruct (PyStr.rstrip s) as [|d t] eqn:Hr.
  - destruct (PyStr.isspace c) eqn:Hc; simpl; [reflexivity |].
    rewrite Hc. reflexivity.
  - change (PyStr.rstrip (String c (String d t)))
      with (match PyStr.rstrip (String d t) with
            | EmptyString =>
                if PyStr.isspace c then EmptyString else String c EmptyString
            | r => String c r
            end).
    rewrite IH. reflexivity.
Qed.

Lemma strip_idempotent s : PyStr.strip (PyStr.strip s) = PyStr.strip s.
Proof.
  unfold PyStr.strip.
  rewrite clean_lstrip by (apply rstrip_clean, lstrip_clean).
  apply rstrip_idempotent.
Qed.

(** X15: every name taken from a requirements file is trimmed (it neither
    starts nor ends with white space, and stripping it again changes
    nothing) and contains neither [==] nor [>=]. *)
Theorem requirement_names_are_clean (lines : list string) (name : string) :
  In name (requirement_names lines) ->
  PyStr.strip name = name
  /\ clean_head name /\ clean_last name
  /\ PyStr.contains "==" name = false
  /\ PyStr.contains ">=" name = false.
Proof.
  unfold requirement_names. intros Hin.
  apply in_map_iff in Hin. destruct Hin as (line & <- & _).
  unfold requirement_name.
  set (a := PyStr.split_head "==" line).
  set (b := PyStr.split_head ">=" a).
  split; [apply strip_idempotent |].
  split; [unfold PyStr.strip; apply rstrip_clean, lstrip_clean |].
  split; [apply rstrip_clean_last |]. split.
  - destruct (PyStr.contains "==" (PyStr.strip b)) eqn:H; [| reflexivity].
    apply contains_strip in H.
    destruct (split_head_is_prefix ">=" a) as [rest Hrest]. fold b in Hrest.
    apply contains_app_l with (r := rest) in H. rewrite <- Hrest in H.
    unfold a in H. rewrite contains_split_head in H. discriminate H.
  - destruct (PyStr.contains ">=" (PyStr.strip b)) eqn:H; [| reflexivity].
    apply contains_strip in H.
    unfold b in H. rewrite contains_split_head in H. discriminate H.
Qed.

(** X15 at a pinned requirement written with spaces. *)
Lemma requirement_names_are_clean_witness :
  PyStr.strip "requests" = "requests"
  /\ clean_head "requests" /\ clean_last "requests"
  /\ PyStr.contains "==" "requests" = false
  /\ PyStr.contains ">=" "requests" = false.
Proof.
  apply (@requirement_names_are_clean ["  requests >= 2.0 , == 2.*"]).
  left. reflexivity.
Defined.

(** X16: a line that starts with white space and is not blank is never
    taken as a comment: it yields an entry, also when a [#] follows the
    white space. *)
Theorem indented_line_is_an_entry (c : ascii) (rest : string) :
  PyStr.isspace c = true ->
  all_space rest = false ->
  requirement_names [String c rest] = [requirement_name (String c rest)].
Proof.
  intros Hc Hrest.
  assert (Hblank : String.eqb (PyStr.strip (String c rest)) EmptyString = false).
  { apply String.eqb_neq. intros H. apply strip_empty in H.
    simpl in H. rewrite Hc, Hrest in H. discriminate H. }
  assert (Hcomment : PyStr.startswith (String c rest) "#" = false).
  { unfold PyStr.startswith. rewrite prefix_cons.
    destruct (ascii_dec "#" c) as [<- | _]; [discriminate Hc | reflexivity]. }
  assert (Hline : requirement_line (String c rest) = true)
    by (unfold requirement_line; rewrite Hblank, Hcomment; reflexivity).
  unfold requirement_names. cbn [filter]. rewrite Hline. reflexivity.
Qed.

(** X16 at an indented comment. *)
Lemma indented_line_is_an_entry_witness :
  requirement_names ["  # pinned for CI"] = ["# pinned for CI"].
Proof.
  apply (@indented_line_is_an_entry " " " # pinned for CI"); reflexivity.
Defined.

(** ** When the npm entry is present *)

Lemma npm_dependencies_needs_well_formed pkg_json lists :
  npm_dependencies pkg_json = Ok lists ->
  exists pkg, json_load pkg_json = Ok pkg /\ well_formed_manifest pkg.
Proof.
  unfold npm_dependencies, bind.
  destruct (json_load pkg_json) as [pkg|e]; [| discriminate].
  destruct pkg as [| | | | |kv]; try discriminate.
  cbn [py_get].
  intros H. exists (JObj kv). split; [reflexivity |].
  exists kv. split; [reflexivity |].
  split; intros v Hv; rewrite Hv in H.
  - destruct v; try discriminate H. eexists. reflexivity.
  - destruct (py_keys match dict_get "dependencies" kv with
                      | Some x => x
                      | None => JObj []
                      end); [| discriminate H].
    destruct v; try discriminate H. eexists. reflexivity.
Qed.

Lemma npm_dependencies_of_well_formed pkg_json pkg :
  json_load pkg_json = Ok pkg -> well_formed_manifest pkg ->
  npm_dependencies pkg_json
  = Ok (firstn 10 (declared pkg "dependencies"),
        firstn 10 (declared pkg "devDependencies")).
Proof.
  intros Hload (kv & -> & Hdeps & Hdev).
  unfold npm_dependencies. rewrite Hload. cbn [bind py_get declared].
  destruct (dict_get "dependencies" kv) as [v|].
  - destruct (Hdeps v eq_refl) as [d ->].
    destruct (dict_get "devDependencies" kv) as [w|].
    + destruct (Hdev w eq_refl) as [dd ->]. reflexivity.
    + reflexivity.
  - destruct (dict_get "devDependencies" kv) as [w|].
    + destruct (Hdev w eq_refl) as [dd ->]. reflexivity.
    + reflexivity.
Qed.

(** X17: [_analyze_dependencies] returns an npm entry exactly when
    [package.json] at the root loads as an object whose [dependencies] and
    [devDependencies], where present, are objects; when one of them is
    not, both lists are left out. *)
Theorem npm_entry_needs_well_formed_manifest (project_path : option entry) :
  (exists deps lists,
     _analyze_dependencies project_path = Ok deps /\ npm deps = Some lists)
  <-> (exists pkg,
         json_load (child project_path "package.json") = Ok pkg
         /\ well_formed_manifest pkg).
Proof.
  split.
  - intros (deps & lists & Hrun & H).
    assert (Hroot : forall n, project_path <> Some (Locked n)).
    { intros n ->. discriminate Hrun. }
    rewrite (analyze_dependencies_returns Hroot) in Hrun.
    injection Hrun as <-. cbn [npm] in H.
    destruct (exists_ (child project_path "package.json"));
      [| discriminate].
    destruct (npm_dependencies (child project_path "package.json"))
      as [r|e] eqn:Hrun; [| discriminate].
    eapply npm_dependencies_needs_well_formed. exact Hrun.
  - intros (pkg & Hload & Hwf).
    assert (Hroot : forall n, project_path <> Some (Locked n)).
    { intros n ->. discriminate Hload. }
    rewrite (analyze_dependencies_returns Hroot).
    rewrite (npm_dependencies_of_well_formed _ Hload Hwf).
    assert (Hexists : exists_ (child project_path "package.json") = true)
      by (destruct (child project_path "package.json");
          [reflexivity | discriminate Hload]).
    rewrite Hexists. eexists. eexists. split; reflexivity.
Qed.

(** ** When the pip entry is present *)

(** X27: [_analyze_dependencies] returns a pip entry exactly when
    [requirements.txt] at the root is a file that can be opened and read;
    a directory of that name, or a file whose reading raises, leaves the
    entry out, the exception being caught. *)
Theorem pip_entry_needs_readable_file (project_path : option entry) :
  (exists deps names,
     _analyze_dependencies project_path = Ok deps /\ pip deps = Some names)
  <-> (exists f c,
         child project_path "requirements.txt" = Some (File f c)
         /\ unreadable c = None).
Proof.
  split.
  - intros (deps & names & Hrun & H).
    assert (Hroot : forall n, project_path <> Some (Locked n)).
    { intros n ->. discriminate Hrun. }
    rewrite (analyze_dependencies_returns Hroot) in Hrun.
    injection Hrun as <-. cbn [pip] in H.
    destruct (child project_path "requirements.txt")
      as [[f c | d [|] sub | d]|];
      unfold exists_, pip_dependencies, on_success in H; try discriminate H.
    destruct (unreadable c) as [e|] eqn:Hread; [discriminate H |].
    exists f, c. split; [reflexivity | exact Hread].
  - intros (f & c & Hchild & Hread).
    assert (Hroot : forall n, project_path <> Some (Locked n)).
    { intros n ->. discriminate Hchild. }
    rewrite (analyze_dependencies_returns Hroot).
    eexists. eexists. split; [reflexivity |].
    cbn [pip]. rewrite Hchild. unfold exists_, pip_dependencies, on_success.
    rewrite Hread. reflexivity.
Qed.

(** X27 at a requirements file that cannot be read. *)
Lemma pip_entry_needs_readable_file_witness :
  _analyze_dependencies unreadable_requirements
  = Ok {| npm := None; pip := None |}
  /\ ~ (exists deps names,
          _analyze_dependencies unreadable_requirements = Ok deps
          /\ pip deps = Some names).
Proof.
  split; [reflexivity |].
  intros H.
  apply (proj1 (pip_entry_needs_readable_file unreadable_requirements)) in H.
  destruct H as (f & c & Hchild & Hread).
  injection Hchild as <- <-. discriminate Hread.
Defined.

(** ** What the tree shows *)

(** X18: no node of the tree is an entry with a hidden name or with a name
    of the ignore set, whether directory or file. *)
Theorem tree_shows_no_hidden_or_ignored_name
  (n : string) (listable : bool) (items : list entry) :
  let root := Dir n listable items in
  _get_tree_structure (Some root)
  = Ok ((n ++ "/")%string :: flat_map (draw EmptyString) (forest 3 root))
  /\ every_node (fun s => hidden (shown_name s) = false
                          /\ ignored (shown_name s) = false)
                3 (forest 3 root).
Proof.
  intros root. split.
  - unfold _get_tree_structure, root.
    rewrite add_to_tree_draws by lia. reflexivity.
  - apply forest_displayed.
Qed.

Lemma insert_sorted_permutation x l : Permutation (insert_sorted x l) (x :: l).
Proof.
  induction l as [|y l IH]; simpl.
  - apply Permutation_refl.
  - destruct (key_leb x y).
    + apply Permutation_refl.
    + apply perm_trans with (y :: x :: l).
      * apply perm_skip. exact IH.
      * apply perm_swap.
Qed.

(** Sorting loses and adds nothing. *)
Lemma sorted_permutation l : Permutation (sorted l) l.
Proof.
  induction l as [|x l IH]; simpl.
  - apply perm_nil.
  - apply perm_trans with (x :: sorted l).
    + apply insert_sorted_permutation.
    + apply perm_skip. exact IH.
Qed.

Lemma filter_permutation {A : Type} (keep : A -> bool) l l' :
  Permutation l l' -> Permutation (filter keep l) (filter keep l').
Proof.
  induction 1 as [| x l l' _ IH | x y l | l l' l'' _ IH1 _ IH2]; simpl.
  - apply perm_nil.
  - destruct (keep x); [apply perm_skip |]; exact IH.
  - destruct (keep x), (keep y);
      try apply perm_swap; apply Permutation_refl.
  - eapply perm_trans; eassumption.
Qed.

Lemma map_snd_combine {A B : Type} (l : list B) : forall (numbers : list A),
  List.length numbers = List.length l ->
  map snd (combine numbers l) = l.
Proof.
  induction l as [|x l IH]; intros [|i numbers] Hlen; simpl in *;
    try reflexivity; try discriminate.
  rewrite IH by lia. reflexivity.
Qed.

(** X19: in a directory with at most 20 entries to display, the tree
    shows them all: the names drawn under it are the names of its entries
    that are neither hidden nor of the ignore set, in another order. *)
Theorem tree_shows_all_when_they_fit
  (k : nat) (n : string) (l : list entry) :
  List.length (filter displayed l) <= 20 ->
  Permutation (map shown_name (forest (S k) (Dir n true l)))
              (map entry_name (filter displayed l)).
Proof.
  intros Hfit.
  assert (Hperm : Permutation (filter displayed (sorted l))
                              (filter displayed l))
    by (apply filter_permutation, sorted_permutation).
  rewrite forest_dir, map_map. cbn [shown_name].
  rewrite firstn_all2
    by (rewrite (Permutation_length Hperm); exact Hfit).
  rewrite <- (map_map snd entry_name).
  unfold enumerate. rewrite map_snd_combine by apply length_seq.
  apply Permutation_map. exact Hperm.
Qed.

(** X19 at the root of a Python service. *)
Lemma tree_shows_all_when_they_fit_witness :
  Permutation
    (map shown_name (forest 3 (Dir "svc" true python_service)))
    ["requirements.txt"; "app.py"; "src"; "tests"].
Proof.
  apply (@tree_shows_all_when_they_fit 2 "svc" python_service).
  vm_compute. lia.
Defined.

Lemma nth_error_numbered {A : Type} (l : list A) : forall a len i j x,
  nth_error (combine (seq a len) l) i = Some (j, x) -> j = a + i.
Proof.
  induction l as [|y l IH]; intros a [|len] [|i] j x; simpl;
    try discriminate.
  - intros H. injection H as <- _. lia.
  - intros H. apply IH in H. lia.
Qed.

Lemma displayed_count_sorted l :
  List.length (filter displayed (sorted l)) = List.length (filter displayed l).
Proof.
  apply Permutation_length, filter_permutation, sorted_permutation.
Qed.

(** X20: under a directory, the node at position [i] is drawn as the last
    child exactly when [i] is the last position among all the entries to
    display, cut or not: with more than 20 such entries, none of the 20
    drawn is marked as last. *)
Theorem last_connector_counts_cut_entries
  (k : nat) (n : string) (l : list entry) (i : nat) (s : shown) :
  nth_error (forest (S k) (Dir n true l)) i = Some s ->
  shown_last s = (i =? List.length (filter displayed l) - 1)%nat
  /\ (20 < List.length (filter displayed l) -> shown_last s = false).
Proof.
  rewrite forest_dir, displayed_count_sorted. intros Hnth.
  assert (Hi : i < 20).
  { assert (Hsome : nth_error
                      (map (fun ix =>
                              Shown (entry_name (snd ix)) (is_dir (snd ix))
                                (fst ix =? List.length (filter displayed l) - 1)%nat
                                (if is_dir (snd ix) then forest k (snd ix) else []))
                           (enumerate (firstn 20 (filter displayed (sorted l)))))
                      i <> None) by congruence.
    apply nth_error_Some in Hsome.
    unfold enumerate in Hsome.
    rewrite length_map, length_combine, length_seq, Nat.min_id in Hsome.
    pose proof (firstn_le_length 20 (filter displayed (sorted l))). lia. }
  rewrite nth_error_map in Hnth.
  destruct (nth_error (enumerate (firstn 20 (filter displayed (sorted l)))) i)
    as [[j item]|] eqn:Hix; [| discriminate Hnth].
  unfold enumerate in Hix. apply nth_error_numbered in Hix. simpl in Hix.
  subst j. injection Hnth as <-. cbn [shown_last fst]. split; [reflexivity |].
  intros Hmany. apply Nat.eqb_neq. lia.
Qed.

(** X20 at the twentieth of 21 files. *)
Lemma last_connector_counts_cut_entries_witness :
  nth_error (forest 1 (Dir "big" true crowded_directory)) 19
  = Some (Shown "t" false false [])
  /\ shown_last (Shown "t" false false []) = false.
Proof.
  split; [reflexivity |].
  apply (@last_connector_counts_cut_entries
           0 "big" crowded_directory 19 (Shown "t" false false []) eq_refl).
  vm_compute. lia.
Defined.

Lemma flat_map_length_bound {A B : Type} (g : A -> list B) (b : nat) l :
  (forall x, In x l -> List.length (g x) <= b) ->
  List.length (flat_map g l) <= List.length l * b.
Proof.
  induction l as [|x l IH]; intros Hg; simpl.
  - lia.
  - rewrite length_app.
    pose proof (Hg x (or_introl eq_refl)).
    assert (List.length (flat_map g l) <= List.length l * b)
      by (apply IH; intros y Hy; apply Hg; right; exact Hy).
    lia.
Qed.

Lemma drawing_length levels : forall siblings prefix,
  bounded_forest levels siblings ->
  List.length (flat_map (draw prefix) siblings) <= line_bound levels.
Proof.
  induction levels as [|k IH]; intros siblings prefix Hb.
  - simpl in Hb. subst siblings. simpl. lia.
  - destruct Hb as (Hlen & _ & Hunder).
    pose proof (@flat_map_length_bound _ _ (draw prefix) (1 + line_bound k)
                  siblings) as Hbound.
    assert (Heach : forall s, In s siblings ->
              List.length (draw prefix s) <= 1 + line_bound k).
    { intros [name dir is_last under] Hs. rewrite draw_unfold.
      rewrite Forall_forall in Hunder. specialize (Hunder _ Hs).
      simpl in Hunder. simpl List.length.
      specialize (IH under
                    (prefix ++ (if is_last then last_indent
                                else inner_indent))%string Hunder).
      lia. }
    specialize (Hbound Heach).
    cbn [line_bound].
    assert (List.length siblings * (1 + line_bound k)
            <= 20 * (1 + line_bound k))
      by (apply Nat.mul_le_mono_r; exact Hlen).
    lia.
Qed.

(** X21: whatever the size of the project, the tree has at most 8421
    lines: the line of the root and at most 20, 400 and 8000 lines for the
    three levels below it. *)
Theorem tree_has_at_most_8421_lines
  (n : string) (listable : bool) (items : list entry) :
  exists lines,
    _get_tree_structure (Some (Dir n listable items)) = Ok lines
    /\ 1 <= List.length lines <= 1 + 20 + 20 * 20 + 20 * 20 * 20.
Proof.
  eexists. split.
  - unfold _get_tree_structure. rewrite add_to_tree_draws by lia. reflexivity.
  - pose proof (@drawing_length 3 (forest (3 - 0) (Dir n listable items))
                  EmptyString (forest_bounded 3 _)) as H.
    cbn [line_bound] in H.
    cbn [List.length]. lia.
Qed.

(** ** The architecture notes *)

Lemma exists_child n r items x :
  exists_ (child (Some (Dir n r items)) x) = true <-> named_at items x.
Proof.
  unfold child, exists_, named_at. split.
  - destruct (find (fun e => String.eqb (entry_name e) x) items) as [e|] eqn:Hf;
      [| discriminate].
    intros _. apply find_some in Hf. destruct Hf as [Hin Heq].
    exists e. split; [exact Hin | apply String.eqb_eq; exact Heq].
  - intros (e & Hin & Heq).
    destruct (find (fun e => String.eqb (entry_name e) x) items) as [e'|] eqn:Hf;
      [reflexivity |].
    apply (find_none _ _ Hf) in Hin. apply String.eqb_neq in Hin. contradiction.
Qed.

Lemma exists_under_src n r items x :
  exists_ (child (child (Some (Dir n r items)) "src") x) = true
  <-> named_under_src items x.
Proof.
  unfold named_under_src.
  change (child (Some (Dir EmptyString true items)) "src")
    with (child (Some (Dir n r items)) "src").
  destruct (child (Some (Dir n r items)) "src") as [[f c | d l sub | d]|].
  - split; [discriminate |]. intros (? & ? & ? & H & _). discriminate H.
  - rewrite exists_child. split.
    + intros H. exists d, l, sub. split; [reflexivity | exact H].
    + intros (? & ? & ? & H & Hn). injection H as <- <- <-. exact Hn.
  - split; [discriminate |]. intros (? & ? & ? & H & _). discriminate H.
  - split; [discriminate |]. intros (? & ? & ? & H & _). discriminate H.
Qed.

Lemma notes_of_conditions (b1 b2 b3 b4 b5 : bool) :
  let notes := notes_for b1 b2 b3 b4 b5 in
  (In "Frontend component-based architecture detected" notes <-> b1 = true)
  /\ (In "API/routing layer present" notes <-> b2 = true)
  /\ (In "Data models layer detected" notes <-> b3 = true)
  /\ (In "Test suite present" notes <-> b4 = true)
  /\ (In "Documentation directory found" notes <-> b5 = true)
  /\ notes = filter (fun note => PyStr.mem note notes) all_notes.
Proof.
  unfold notes_for.
  destruct b1, b2, b3, b4, b5; cbv zeta; cbn [app];
    repeat split;
    first [ reflexivity
          | intros H;
            first [ discriminate H
                  | reflexivity
                  | solve [simpl; auto 10]
                  | solve [simpl in H; intuition discriminate] ] ].
Qed.

Lemma either_ok a b : either (Ok a) (Ok b) = Ok (a || b).
Proof. destruct a; reflexivity. Qed.

Lemma exists_at_root n r items x :
  exists_at (Some (Dir n r items)) x
  = Ok (exists_ (child (Some (Dir n r items)) x)).
Proof. reflexivity. Qed.

Lemma exists_in_src_searchable n r items x :
  ~ src_is_locked items ->
  exists_in_src (Some (Dir n r items)) x
  = Ok (exists_ (child (child (Some (Dir n r items)) "src") x)).
Proof.
  intros Hsrc. unfold exists_in_src. cbn [lookup bind].
  destruct (child (Some (Dir n r items)) "src") as [[f c | d l sub | d]|] eqn:E;
    try reflexivity.
  exfalso. apply Hsrc. exists d. exact E.
Qed.

Lemma exists_in_src_locked n r items x :
  src_is_locked items ->
  exists_in_src (Some (Dir n r items)) x = Raise PermissionError.
Proof.
  intros [m Hsrc]. unfold exists_in_src. cbn [lookup bind].
  change (child (Some (Dir n r items)) "src")
    with (child (Some (Dir EmptyString true items)) "src").
  rewrite Hsrc. reflexivity.
Qed.

(** With a [src] that can be searched the notes are always returned. *)
Lemma notes_when_searchable n r items :
  let root := Some (Dir n r items) in
  ~ src_is_locked items ->
  _generate_architecture_notes root
  = Ok (notes_for
          (exists_ (child root "components")
           || exists_ (child (child root "src") "components"))
          (exists_ (child root "api") || exists_ (child root "routes"))
          (exists_ (child root "models")
           || exists_ (child (child root "src") "models"))
          (exists_ (child root "tests") || exists_ (child root "test"))
          (exists_ (child root "docs"))).
Proof.
  intros root Hsrc. subst root. unfold _generate_architecture_notes.
  rewrite !exists_at_root, !(exists_in_src_searchable n r _ Hsrc), !either_ok.
  reflexivity.
Qed.

(** With a [src] without permission the notes are returned only when
    neither lookup in [src] is made. *)
Lemma notes_when_locked n r items :
  let root := Some (Dir n r items) in
  src_is_locked items ->
  _generate_architecture_notes root
  = if exists_ (child root "components") && exists_ (child root "models")
    then Ok (notes_for true
               (exists_ (child root "api") || exists_ (child root "routes"))
               true
               (exists_ (child root "tests") || exists_ (child root "test"))
               (exists_ (child root "docs")))
    else Raise PermissionError.
Proof.
  intros root Hsrc. subst root. unfold _generate_architecture_notes.
  rewrite !exists_at_root, !(exists_in_src_locked n r _ Hsrc).
  rewrite !either_ok. unfold either. cbn [bind].
  destruct (exists_ (child (Some (Dir n r items)) "components"));
    [| reflexivity].
  cbn [bind andb].
  destruct (exists_ (child (Some (Dir n r items)) "models")); reflexivity.
Qed.

Lemma src_locked_or_not items : src_is_locked items \/ ~ src_is_locked items.
Proof.
  unfold src_is_locked.
  destruct (child (Some (Dir EmptyString true items)) "src")
    as [[f c | d l sub | d]|].
  - right. intros [m H]. discriminate H.
  - right. intros [m H]. discriminate H.
  - left. exists d. reflexivity.
  - right. intros [m H]. discriminate H.
Qed.

Lemma locked_src_hides_entries n r items x :
  src_is_locked items ->
  exists_ (child (child (Some (Dir n r items)) "src") x) = false.
Proof.
  intros [m Hsrc].
  change (child (Some (Dir n r items)) "src")
    with (child (Some (Dir EmptyString true items)) "src").
  rewrite Hsrc. reflexivity.
Qed.

(** The notes, when they are returned. *)
Lemma notes_value n r items notes :
  let root := Some (Dir n r items) in
  _generate_architecture_notes root = Ok notes ->
  notes
  = notes_for
      (exists_ (child root "components")
       || exists_ (child (child root "src") "components"))
      (exists_ (child root "api") || exists_ (child root "routes"))
      (exists_ (child root "models")
       || exists_ (child (child root "src") "models"))
      (exists_ (child root "tests") || exists_ (child root "test"))
      (exists_ (child root "docs")).
Proof.
  intros root. subst root.
  destruct (src_locked_or_not items) as [Hsrc | Hsrc].
  - rewrite (notes_when_locked n r Hsrc).
    rewrite !(locked_src_hides_entries n r _ Hsrc).
    destruct (exists_ (child (Some (Dir n r items)) "components"));
      [| discriminate].
    destruct (exists_ (child (Some (Dir n r items)) "models"));
      [| discriminate].
    intros H. injection H as <-. reflexivity.
  - rewrite (notes_when_searchable n r Hsrc).
    intros H. injection H as <-. reflexivity.
Qed.

(** X22: when [_generate_architecture_notes] returns, each architecture
    note is present exactly when an entry with one of its names exists,
    file or directory alike, at the root or, for components and models,
    in the directory [src]; the notes come in one fixed order, none
    twice.  Enumerating the root is not needed. *)
Theorem architecture_notes_follow_names
  (n : string) (listable : bool) (items : list entry) (notes : list string) :
  _generate_architecture_notes (Some (Dir n listable items)) = Ok notes ->
  (In "Frontend component-based architecture detected" notes
   <-> named_at items "components" \/ named_under_src items "components")
  /\ (In "API/routing layer present" notes
      <-> named_at items "api" \/ named_at items "routes")
  /\ (In "Data models layer detected" notes
      <-> named_at items "models" \/ named_under_src items "models")
  /\ (In "Test suite present" notes
      <-> named_at items "tests" \/ named_at items "test")
  /\ (In "Documentation directory found" notes <-> named_at items "docs")
  /\ notes = filter (fun note => PyStr.mem note notes) all_notes.
Proof.
  intros Hrun. apply notes_value in Hrun. cbv zeta in Hrun. subst notes.
  set (root := Some (Dir n listable items)).
  destruct (notes_of_conditions
              (exists_ (child root "components")
               || exists_ (child (child root "src") "components"))
              (exists_ (child root "api") || exists_ (child root "routes"))
              (exists_ (child root "models")
               || exists_ (child (child root "src") "models"))
              (exists_ (child root "tests") || exists_ (child root "test"))
              (exists_ (child root "docs")))
    as (H1 & H2 & H3 & H4 & H5 & Horder).
  cbv zeta in *.
  rewrite H1, H2, H3, H4, H5, !orb_true_iff.
  unfold root.
  rewrite !exists_child, !exists_under_src.
  repeat split; tauto.
Qed.

(** X22 at a project with a file named [docs] and models in [src]. *)
Lemma architecture_notes_follow_names_witness :
  _generate_architecture_notes (Some (Dir "svc" false python_service))
  = Ok ["Data models layer detected"; "Test suite present"]
  /\ (In "Data models layer detected"
         ["Data models layer detected"; "Test suite present"]
      <-> named_at python_service "models"
          \/ named_under_src python_service "models").
Proof.
  split; [reflexivity |].
  apply (@architecture_notes_follow_names
           "svc" false python_service
           ["Data models layer detected"; "Test suite present"] eq_refl).
Defined.

(** X26: [_generate_architecture_notes] raises exactly when [src] at the
    root is a directory without any permission and [components] or
    [models] is missing at the root, so that [exists()] looks into
    [src]; the exception is [PermissionError] and no note is returned. *)
Theorem architecture_notes_raise_exactly
  (n : string) (listable : bool) (items : list entry) :
  (forall e,
     _generate_architecture_notes (Some (Dir n listable items)) = Raise e ->
     e = PermissionError)
  /\ (_generate_architecture_notes (Some (Dir n listable items))
      = Raise PermissionError
      <-> src_is_locked items
          /\ ~ (named_at items "components" /\ named_at items "models")).
Proof.
  destruct (src_locked_or_not items) as [Hsrc | Hsrc].
  - rewrite (notes_when_locked n listable Hsrc).
    rewrite <- (exists_child n listable items "components").
    rewrite <- (exists_child n listable items "models").
    destruct (exists_ (child (Some (Dir n listable items)) "components"));
      destruct (exists_ (child (Some (Dir n listable items)) "models"));
      cbn [andb]; split;
      try (intros e H; first [discriminate H | injection H as <-; reflexivity]);
      split; try discriminate; try (intros _; split; [exact Hsrc |]);
      try (intros [H1 H2]; discriminate);
      try (intros [_ H]; exfalso; apply H; split; reflexivity);
      try reflexivity.
  - rewrite (notes_when_searchable n listable Hsrc). split.
    + intros e H. discriminate H.
    + split; [discriminate | intros [H _]; contradiction].
Qed.

(** X26 at a project whose [src] gives no permission. *)
Lemma architecture_notes_raise_exactly_witness :
  _generate_architecture_notes (Some (Dir "proj" true locked_src_project))
  = Raise PermissionError
  /\ src_is_locked locked_src_project
  /\ ~ (named_at locked_src_project "components"
        /\ named_at locked_src_project "models").
Proof.
  split; [reflexivity |].
  apply (proj1 (proj2 (@architecture_notes_raise_exactly
                         "proj" true locked_src_project))).
  reflexivity.
Defined.

(** ** When a run returns a report *)

Lemma notes_raise_permission_error n r items e :
  _generate_architecture_notes (Some (Dir n r items)) = Raise e ->
  e = PermissionError.
Proof.
  destruct (src_locked_or_not items) as [Hsrc | Hsrc].
  - rewrite (notes_when_locked n r Hsrc).
    destruct (_ && _); [discriminate |].
    intros H. injection H as <-. reflexivity.
  - rewrite (notes_when_searchable n r Hsrc). discriminate.
Qed.

(** X10: on a root directory that can be enumerated, has no
    [package.json] among its files and whose [src], if any, is not a
    directory without permission, [analyze] enters all seven steps and
    returns a report, whose parts are what the steps compute. *)
Theorem run_without_manifest_returns_report
  (n : string) (items : list entry) :
  let root := Some (Dir n true items) in
  PyStr.mem "package.json" (root_file_names root) = false ->
  ~ src_is_locked items ->
  exists results,
    analyze root = (all_steps, Ok results)
    /\ _scan_directory root = Ok (r_languages results)
    /\ _identify_project_type root (r_languages results)
       = Ok (Some (r_project_type results))
    /\ _get_tree_structure root = Ok (r_structure results)
    /\ r_entry_points results = _find_entry_points root
    /\ r_config_files results = _analyze_config_files root
    /\ _analyze_dependencies root = Ok (r_dependencies results)
    /\ _generate_architecture_notes root = Ok (r_architecture_notes results).
Proof.
  intros root Hnode Hsrc. subst root.
  assert (Hroot : forall m, Some (Dir n true items) <> Some (Locked m))
    by discriminate.
  unfold analyze.
  rewrite scan_directory_tally.
  rewrite (identify_without_manifest n items _ Hnode).
  rewrite (analyze_dependencies_returns Hroot).
  cbn [_get_tree_structure].
  rewrite (notes_when_searchable n true Hsrc).
  eexists. split; [reflexivity |].
  cbn [r_languages r_project_type r_structure r_entry_points r_config_files
       r_dependencies r_architecture_notes].
  repeat split.
  apply identify_without_manifest. exact Hnode.
Qed.

(** X10 at a Python service. *)
Lemma run_without_manifest_returns_report_witness :
  exists results,
    analyze (Some (Dir "svc" true python_service)) = (all_steps, Ok results)
    /\ r_project_type results = Python
    /\ r_entry_points results = ["app.py"; "src/main.py"].
Proof.
  destruct (@run_without_manifest_returns_report "svc" python_service eq_refl)
    as (results & Hrun & _).
  - intros [m H]. discriminate H.
  - exists results. split; [exact Hrun |].
    vm_compute in Hrun. injection Hrun as <-. split; reflexivity.
Defined.

(** X11: on a root directory that can be enumerated, two exceptions can
    end [analyze] and no other: the [AttributeError] of reading a project
    type that was never assigned, after the first five steps, and the
    [PermissionError] of [_generate_architecture_notes], after all seven
    steps were entered. *)
Theorem readable_root_raises_attribute_or_permission_error
  (n : string) (items : list entry) (entered : list step) (e : exn) :
  let root := Some (Dir n true items) in
  analyze root = (entered, Raise e) ->
  (e = AttributeError
   /\ entered = steps_before_report
   /\ exists file_stats,
        _scan_directory root = Ok file_stats
        /\ _identify_project_type root file_stats = Ok None)
  \/ (e = PermissionError
      /\ entered = all_steps
      /\ _generate_architecture_notes root = Raise PermissionError).
Proof.
  intros root. subst root. unfold analyze.
  rewrite scan_directory_tally.
  set (file_stats := tally _ []).
  destruct (_identify_project_type (Some (Dir n true items)) file_stats)
    as [[t|]|e'] eqn:Hid.
  - cbn [_get_tree_structure].
    destruct (_generate_architecture_notes (Some (Dir n true items)))
      as [notes|e'] eqn:Hnotes; [discriminate |].
    intros H. injection H as <- <-.
    right. rewrite (@notes_raise_permission_error _ _ _ _ Hnotes).
    repeat split.
  - intros H. injection H as <- <-.
    left. repeat split. exists file_stats. split; [reflexivity | exact Hid].
  - unfold _identify_project_type in Hid. simpl in Hid. discriminate Hid.
Qed.

(** X11 at a project whose [src] gives no permission. *)
Lemma readable_root_raises_attribute_or_permission_error_witness :
  analyze (Some (Dir "proj" true locked_src_project))
  = (all_steps, Raise PermissionError)
  /\ _generate_architecture_notes (Some (Dir "proj" true locked_src_project))
     = Raise PermissionError.
Proof.
  assert (Hrun : analyze (Some (Dir "proj" true locked_src_project))
                 = (all_steps, Raise PermissionError)) by reflexivity.
  split; [exact Hrun |].
  destruct (@readable_root_raises_attribute_or_permission_error
              "proj" locked_src_project all_steps PermissionError Hrun)
    as [(H & _) | (_ & _ & H)]; [discriminate H | exact H].
Defined.

(** ** The printed report *)

Lemma insert_by_count_permutation x l :
  Permutation (insert_by_count x l) (x :: l).
Proof.
  induction l as [|y l IH]; simpl.
  - apply Permutation_refl.
  - destruct (snd y <=? snd x)%nat.
    + apply Permutation_refl.
    + apply perm_trans with (y :: x :: l).
      * apply perm_skip. exact IH.
      * apply perm_swap.
Qed.

Lemma most_common_first_permutation h : Permutation (most_common_first h) h.
Proof.
  induction h as [|x h IH]; simpl.
  - apply perm_nil.
  - apply perm_trans with (x :: most_common_first h).
    + apply insert_by_count_permutation.
    + apply perm_skip. exact IH.
Qed.

Lemma insert_by_count_ordered x l :
  StronglySorted by_falling_count l ->
  StronglySorted by_falling_count (insert_by_count x l).
Proof.
  induction 1 as [|y l Hsorted IH Hall]; simpl.
  - constructor; constructor.
  - destruct (Nat.leb_spec (snd y) (snd x)) as [Hle | Hgt].
    + constructor.
      * constructor; assumption.
      * constructor; [exact Hle |].
        eapply Forall_impl; [| exact Hall].
        unfold by_falling_count. intros z Hz. lia.
    + constructor; [exact IH |].
      apply Forall_forall. intros z Hz.
      apply (Permutation_in _ (insert_by_count_permutation x l)) in Hz.
      destruct Hz as [<- | Hz].
      * unfold by_falling_count. lia.
      * rewrite Forall_forall in Hall. apply Hall. exact Hz.
Qed.

Lemma most_common_first_ordered h :
  StronglySorted by_falling_count (most_common_first h).
Proof.
  induction h as [|x h IH]; simpl.
  - constructor.
  - apply insert_by_count_ordered. exact IH.
Qed.

(** X23: the extensions the report prints are the (at most) 10 with the
    greatest counts, the greatest first: with the extensions left out put
    after them, they make up the whole histogram in an order along which
    the counts never grow. *)
Theorem top_languages_are_the_most_common (languages : histogram) :
  exists left_out,
    Permutation (top_languages languages ++ left_out) languages
    /\ StronglySorted by_falling_count (top_languages languages ++ left_out)
    /\ List.length (top_languages languages)
       = Nat.min 10 (List.length languages).
Proof.
  exists (skipn 10 (most_common_first languages)).
  unfold top_languages. rewrite firstn_skipn. repeat split.
  - apply most_common_first_permutation.
  - apply most_common_first_ordered.
  - rewrite length_firstn.
    rewrite (Permutation_length (most_common_first_permutation languages)).
    reflexivity.
Qed.

Lemma notes_at_most_five project_path notes :
  _generate_architecture_notes project_path = Ok notes ->
  List.length notes <= 5.
Proof.
  unfold _generate_architecture_notes, bind.
  repeat match goal with
         | |- context [match ?r with Ok _ => _ | Raise _ => _ end] =>
             destruct r; [| discriminate]
         end.
  intros H. injection H as <-. unfold notes_for.
  repeat match goal with
         | |- context [if ?b then _ else _] => destruct b
         end; simpl; lia.
Qed.

Lemma analyze_report_notes project_path entered results :
  analyze project_path = (entered, Ok results) ->
  _generate_architecture_notes project_path
  = Ok (r_architecture_notes results).
Proof.
  unfold analyze.
  destruct (_scan_directory project_path) as [file_stats|e]; [| discriminate].
  destruct (_identify_project_type project_path file_stats) as [assigned|e];
    [| discriminate].
  destruct (_analyze_dependencies project_path) as [deps|e]; [| discriminate].
  destruct assigned as [t|]; [| discriminate].
  destruct (_get_tree_structure project_path) as [structure|e];
    [| discriminate].
  destruct (_generate_architecture_notes project_path) as [notes|e];
    [| discriminate].
  intros H. injection H as _ <-. reflexivity.
Qed.

Lemma dependency_lines_at_most_three d :
  List.length (dependency_lines d) <= 3.
Proof.
  unfold dependency_lines.
  destruct (npm d) as [[production dev]|], (pip d) as [names|]; simpl; lia.
Qed.

Lemma print_report_length project_name results :
  List.length (print_report project_name results)
  <= 67 + List.length (r_architecture_notes results).
Proof.
  unfold print_report.
  repeat rewrite length_app. repeat rewrite length_map.
  pose proof (firstn_le_length 10 (most_common_first (r_languages results))).
  pose proof (firstn_le_length 5 (r_entry_points results)).
  pose proof (firstn_le_length 10 (r_config_files results)).
  pose proof (firstn_le_length 30 (r_structure results)).
  pose proof (dependency_lines_at_most_three (r_dependencies results)).
  assert (List.length (note_lines (r_architecture_notes results))
          <= 1 + List.length (r_architecture_notes results)).
  { unfold note_lines. destruct (r_architecture_notes results); simpl.
    - lia.
    - rewrite length_map. lia. }
  unfold top_languages. cbn [List.length]. lia.
Qed.

(** X24: whatever the arguments and the project, a run makes at most 72
    calls of [print]. *)
Theorem run_prints_at_most_72_times
  (argv : list string) (resolve : string -> option entry)
  (project_name : string) :
  List.length (stdout project_name (snd (main argv resolve))) <= 72.
Proof.
  unfold main.
  destruct (List.length argv <? 2)%nat; [simpl; lia |].
  destruct (analyze (resolve (nth 1 argv EmptyString)))
    as [entered [results|e]] eqn:Hrun; cbn [snd stdout].
  - pose proof (print_report_length project_name results) as Hlen.
    pose proof (notes_at_most_five _ (analyze_report_notes _ Hrun)).
    lia.
  - simpl. lia.
Qed.

(** ** The tree and the order of enumeration *)

Lemma ordered_permutation_unique {A : Type} (R : A -> A -> Prop) (l1 : list A) :
  forall l2,
    StronglySorted R l1 -> StronglySorted R l2 -> Permutation l1 l2 ->
    (forall a b, In a l1 -> In b l1 -> R a b -> R b a -> a = b) ->
    l1 = l2.
Proof.
  induction l1 as [|a t1 IH]; intros l2 H1 H2 Hperm Hanti.
  - apply Permutation_nil in Hperm. subst. reflexivity.
  - destruct l2 as [|b t2].
    + apply Permutation_sym, Permutation_nil in Hperm. discriminate Hperm.
    + apply StronglySorted_inv in H1. destruct H1 as [Ht1 Ha].
      apply StronglySorted_inv in H2. destruct H2 as [Ht2 Hb].
      rewrite Forall_forall in Ha, Hb.
      assert (Hab : a = b).
      { assert (Hbin : In b (a :: t1))
          by (apply (Permutation_in _ (Permutation_sym Hperm)); left; reflexivity).
        assert (Hain : In a (b :: t2))
          by (apply (Permutation_in _ Hperm); left; reflexivity).
        destruct Hbin as [Heq | Hbin]; [exact Heq |].
        destruct Hain as [Heq | Hain]; [symmetry; exact Heq |].
        apply Hanti.
        - left. reflexivity.
        - right. exact Hbin.
        - apply Ha. exact Hbin.
        - apply Hb. exact Hain. }
      subst b. f_equal. apply IH; try assumption.
      * eapply Permutation_cons_inv. exact Hperm.
      * intros x y Hx Hy. apply Hanti; right; assumption.
Qed.

Lemma same_name_same_entry l : forall a b,
  NoDup (map entry_name l) -> In a l -> In b l ->
  entry_name a = entry_name b -> a = b.
Proof.
  induction l as [|x l IH]; intros a b Hnd Ha Hb Heq; [contradiction |].
  simpl in Hnd. apply NoDup_cons_iff in Hnd. destruct Hnd as [Hx Hnd].
  destruct Ha as [-> | Ha], Hb as [-> | Hb].
  - reflexivity.
  - exfalso. apply Hx. rewrite Heq. apply in_map. exact Hb.
  - exfalso. apply Hx. rewrite <- Heq. apply in_map. exact Ha.
  - apply IH; assumption.
Qed.

Lemma key_le_antisym_names a b :
  key_le a b -> key_le b a -> entry_name a = entry_name b.
Proof.
  unfold key_le, key_leb.
  destruct (is_dir a), (is_dir b); intros Hab Hba; try discriminate;
    apply String.leb_antisym; assumption.
Qed.

(** With distinct names, the sorted listing depends on the entries only,
    not on their order. *)
Lemma sorted_of_permutation l l' :
  NoDup (map entry_name l) -> Permutation l l' -> sorted l = sorted l'.
Proof.
  intros Hnd Hperm.
  apply ordered_permutation_unique with (R := key_le).
  - apply sorted_ordered.
  - apply sorted_ordered.
  - apply perm_trans with l; [apply sorted_permutation |].
    apply perm_trans with l'; [exact Hperm |].
    apply Permutation_sym, sorted_permutation.
  - intros a b Ha Hb Hab Hba.
    apply (Permutation_in _ (sorted_permutation l)) in Ha.
    apply (Permutation_in _ (sorted_permutation l)) in Hb.
    apply (same_name_same_entry l); try assumption.
    apply key_le_antisym_names; assumption.
Qed.

(** X25: the lines of the tree do not depend on the order in which the
    filesystem enumerates the root: two roots whose entries have distinct
    names and differ by their order only are drawn the same. *)
Theorem tree_ignores_enumeration_order
  (n : string) (listable : bool) (items items' : list entry) :
  NoDup (map entry_name items) ->
  Permutation items items' ->
  _get_tree_structure (Some (Dir n listable items))
  = _get_tree_structure (Some (Dir n listable items')).
Proof.
  intros Hnd Hperm. unfold _get_tree_structure. f_equal. f_equal.
  destruct listable; [| reflexivity].
  cbn [add_to_tree Nat.leb].
  rewrite (sorted_of_permutation Hnd Hperm). reflexivity.
Qed.

(** X25 at two orders of three entries. *)
Lemma tree_ignores_enumeration_order_witness :
  _get_tree_structure
    (Some (Dir "proj" true
       [File "b.txt" (plain ""); Dir "src" true []; File "a.txt" (plain "")]))
  = _get_tree_structure
      (Some (Dir "proj" true
         [File "a.txt" (plain ""); File "b.txt" (plain ""); Dir "src" true []])).
Proof.
  apply tree_ignores_enumeration_order.
  - simpl. repeat constructor; simpl; intuition discriminate.
  - apply perm_trans
      with [File "b.txt" (plain ""); File "a.txt" (plain ""); Dir "src" true []].
    + apply perm_skip. apply perm_swap.
    + apply perm_swap.
Defined.
